(** * modelme: a shallow embedding of [lib/modelme.js]

    The library declares data types made of typed fields and validates
    JavaScript records against them ([Model.validate]).  This file embeds
    the library function by function and states the properties of its
    specification over the embedding.

    Modelling conventions.

    - A JavaScript value is a [value]: a primitive, or a reference [VRef l]
      into a [heap] of objects.  Objects that the program can tell apart by
      identity or mutate (plain objects, arrays, [Date]s, functions) live in
      the heap, so that aliasing between the input and the returned entity
      is visible.
    - A number is an IEEE 754 binary64, Rocq's primitive [float].
    - A string is a [string], one character per UTF-16 code unit.
    - A computation that may allocate or throw is a function
      [heap -> result A * heap] (the monad [M]); the heap is kept when an
      exception is raised, since [try]/[catch] in [Model.validate] goes on
      with it.
    - Built-ins of the host that the library calls but does not define
      ([Date.parse], [JSON.parse], the relational operators and string
      conversion on arbitrary operands) are the fields of the class [Host].
    - The schema objects ([fieldTypes], [types], [fields], the field
      summary) are JavaScript objects used as maps: they are kept as
      property lists in [for-in] order, and the [in] operator also sees the
      members every object inherits from [Object.prototype].  An object
      of the heap has [Object.prototype] (or, for an array, a [Date] or a
      function, the prototype of its kind) as its prototype.
    - The name [__proto__] is outside the model.  Assigning to it runs the
      setter of [Object.prototype], which swaps the prototype of the
      object assigned to; after [fieldInfos["__proto__"] = ...] the loops
      of the program also meet what the new prototype holds.  The
      properties about whole calls of [Model.validate] therefore take an
      input without an own property of that name and a type without a
      field of that name.
    - Functions of the heap are not run.  The conversions of the host
      ([<], string concatenation, [toString()]) are those of data: on an
      object that has a [toString] or a [valueOf] of its own, JavaScript
      would run that method, with whatever it does.  The properties about
      whole calls take a heap without such objects ([no_methods]).
    - Rules and the coercions of field types are functions of the
      embedding: a rule reads the heap, a coercion may allocate.  The loop
      variable [fieldName] of [Model.validate] is a global of the program;
      the built-in rules and coercions do not assign it, and neither do
      the functions of the embedding, which cannot call [Model.validate]
      on the same globals.  The properties that name fields take types
      made of built-in field types. *)

From Stdlib Require Import ZArith NArith Ascii String List Bool.
From Stdlib Require Uint63.
From Stdlib Require Import PrimFloat FloatOps SpecFloat.
From stdpp Require Import base option list gmap strings.

Set Default Proof Using "Type".
Local Open Scope string_scope.
Local Open Scope list_scope.

(** ** Values and the heap *)

Abbreviation loc := positive.

Inductive value : Type :=
| VUndefined
| VNull
| VBool (b : bool)
| VNum (n : float)
| VStr (s : string)
| VRef (l : loc).

(** Heap objects.  A plain object keeps its own enumerable properties in
    enumeration order.  A function is known by its number of formal
    parameters (its [length]) and by the value a call without arguments
    returns; the library under study never calls one. *)
Inductive obj : Type :=
| OPlain (props : list (string * value))
| OArray (elems : list value)
| ODate (time : float)
| OFun (arity : nat) (returns : value).

Abbreviation heap := (gmap loc obj).

(** What a [throw] carries: a [ModelMeError] of the library, a [TypeError]
    or [SyntaxError] raised by the engine, or any value thrown as is. *)
Inductive exn : Type :=
| ModelMeError (message : string)
| TypeError
| SyntaxError
| Thrown (v : value).

Inductive result (A : Type) : Type :=
| Ok (a : A)
| Throw (e : exn).
Arguments Ok {A} a.
Arguments Throw {A} e.

(** ** The heap-and-exception monad *)

Definition M (A : Type) : Type := heap -> result A * heap.

Definition ret {A} (a : A) : M A := fun h => (Ok a, h).
Definition throw {A} (e : exn) : M A := fun h => (Throw e, h).
Definition bind {A B} (m : M A) (k : A -> M B) : M B :=
  fun h => match m h with
           | (Ok a, h') => k a h'
           | (Throw e, h') => (Throw e, h')
           end.
(** [try { m } catch (ex) { handler ex }] *)
Definition try_catch {A} (m : M A) (handler : exn -> M A) : M A :=
  fun h => match m h with
           | (Ok a, h') => (Ok a, h')
           | (Throw e, h') => handler e h'
           end.
(** A computation that only reads the heap. *)
Definition lift_read {A} (r : heap -> result A) : M A := fun h => (r h, h).
(** [new ...]: store an object at an unused location. *)
Definition alloc (o : obj) : M value :=
  fun h => let l := fresh (dom h) in (Ok (VRef l), <[l := o]> h).

Declare Scope js_scope.
Delimit Scope js_scope with js.
Notation "x <- m ;; k" := (bind m (fun x => k))
  (at level 100, m at next level, right associativity) : js_scope.

(** The same for computations without heap effects. *)
Definition rbind {A B} (r : result A) (k : A -> result B) : result B :=
  match r with Ok a => k a | Throw e => Throw e end.
Notation "x <-r m ;; k" := (rbind m (fun x => k))
  (at level 100, m at next level, right associativity) : js_scope.
Local Open Scope js_scope.

(** ** Primitive operations of the language *)

(** [typeof v] *)
Definition typeof (h : heap) (v : value) : string :=
  match v with
  | VUndefined => "undefined"
  | VNull => "object"
  | VBool _ => "boolean"
  | VNum _ => "number"
  | VStr _ => "string"
  | VRef l => match h !! l with Some (OFun _ _) => "function" | _ => "object" end
  end.

(** Truthiness, as tested by [if], [!], [&&] and [?:]. *)
Definition ToBoolean (v : value) : bool :=
  match v with
  | VUndefined | VNull => false
  | VBool b => b
  | VNum n => negb (PrimFloat.is_zero n || PrimFloat.is_nan n)
  | VStr s => negb (String.eqb s "")
  | VRef _ => true
  end.

Definition num_of_nat (n : nat) : float :=
  PrimFloat.of_uint63 (Uint63.of_Z (Z.of_nat n)).

(** [x % 1 !== 0] on a number: true unless [x] is a finite integer. *)
Definition has_fraction (x : float) : bool :=
  match Prim2SF x with
  | S754_zero _ => false
  | S754_infinity _ | S754_nan => true
  | S754_finite _ m e =>
      if (0 <=? e)%Z then false
      else negb (Z.eqb (Z.pos m mod 2 ^ (- e)) 0)
  end.

(** [Array.isArray(v)] and [v instanceof Date] *)
Definition isArray (h : heap) (v : value) : bool :=
  match v with
  | VRef l => match h !! l with Some (OArray _) => true | _ => false end
  | _ => false
  end.
Definition instanceof_Date (h : heap) (v : value) : bool :=
  match v with
  | VRef l => match h !! l with Some (ODate _) => true | _ => false end
  | _ => false
  end.

(** ** Objects used as maps *)

Definition props (A : Type) : Type := list (string * A).

Fixpoint own_get {A} (k : string) (o : props A) : option A :=
  match o with
  | [] => None
  | (k', a) :: o' => if String.eqb k k' then Some a else own_get k o'
  end.

Definition has_own {A} (k : string) (o : props A) : bool :=
  match own_get k o with Some _ => true | None => false end.

(** The property names every object inherits from [Object.prototype]. *)
Definition Object_prototype_names : list string :=
  [ "constructor"; "toString"; "toLocaleString"; "valueOf"; "hasOwnProperty";
    "isPrototypeOf"; "propertyIsEnumerable"; "__proto__";
    "__defineGetter__"; "__defineSetter__"; "__lookupGetter__";
    "__lookupSetter__" ].

Definition inherited (k : string) : bool :=
  existsb (String.eqb k) Object_prototype_names.

(** [k in o] *)
Definition js_in {A} (k : string) (o : props A) : bool :=
  has_own k o || inherited k.

(** The outcome of reading [o[k]]. *)
Inductive lookup_result (A : Type) : Type :=
| Own (a : A)          (* an own property *)
| Inherited            (* a member of [Object.prototype] *)
| Absent.              (* [undefined] *)
Arguments Own {A} a.
Arguments Inherited {A}.
Arguments Absent {A}.

Definition js_get {A} (k : string) (o : props A) : lookup_result A :=
  match own_get k o with
  | Some a => Own a
  | None => if inherited k then Inherited else Absent
  end.

(** Array indices: canonical decimal numerals below 2^32 - 1.  Own
    properties whose names are array indices are enumerated first, in
    ascending order, then the other names in creation order. *)
Definition digit_of (c : ascii) : option N :=
  let n := N_of_ascii c in
  if ((48 <=? n) && (n <=? 57))%N then Some (n - 48)%N else None.

Fixpoint digits_value (s : string) (acc : N) : option N :=
  match s with
  | EmptyString => Some acc
  | String c s' =>
      match digit_of c with
      | Some d => digits_value s' (10 * acc + d)%N
      | None => None
      end
  end.

Definition array_index (s : string) : option N :=
  match s with
  | EmptyString => None
  | String c s' =>
      if Ascii.eqb c "0"%char then
        match s' with EmptyString => Some 0%N | _ => None end
      else
        match digits_value s 0 with
        | Some n => if (n <? 4294967295)%N then Some n else None
        | None => None
        end
  end.

Fixpoint replace_own {A} (k : string) (a : A) (o : props A) : props A :=
  match o with
  | [] => []
  | (k', a') :: o' =>
      if String.eqb k k' then (k', a) :: o' else (k', a') :: replace_own k a o'
  end.

Fixpoint insert_index {A} (i : N) (k : string) (a : A) (o : props A) : props A :=
  match o with
  | [] => [(k, a)]
  | (k', a') :: o' =>
      match array_index k' with
      | Some j => if (j <? i)%N then (k', a') :: insert_index i k a o'
                  else (k, a) :: o
      | None => (k, a) :: o
      end
  end.

(** [o[k] = a] *)
Definition own_set {A} (k : string) (a : A) (o : props A) : props A :=
  if has_own k o then replace_own k a o
  else match array_index k with
       | Some i => insert_index i k a o
       | None => o ++ [(k, a)]
       end.

(** Decimal numeral of an array index. *)
Fixpoint nat_digits (fuel n : nat) (acc : string) : string :=
  match fuel with
  | O => acc
  | S fuel' =>
      let acc' := String (ascii_of_nat (48 + n mod 10)) acc in
      if Nat.eqb (n / 10) 0 then acc' else nat_digits fuel' (n / 10) acc'
  end.
Definition index_name (n : nat) : string := nat_digits (S n) n "".


(** ** The host *)

(** The built-ins the library calls.  [less_than h x y] is [x < y],
    [ToString h v] the string that [v] contributes to a concatenation
    ["..." + v], [call_toString h v] the call [v.toString()]; on operands
    of arbitrary type each of them may throw.  They read the heap: these
    are the conversions of primitives and of objects that have no
    [toString] or [valueOf] of their own, for which the engine's own
    methods run.  [JSON_parse] allocates the objects it returns and leaves
    the existing ones alone. *)
Class Host : Type := {
  Date_parse : string -> float;
  JSON_parse : string -> M value;
  less_than : heap -> value -> value -> result bool;
  ToString : heap -> value -> result string;
  call_toString : heap -> value -> result value;
  JSON_parse_extends :
    forall s h r h', JSON_parse s h = (r, h') -> h ⊆ h'
}.

(** [x > y] is evaluated as [y < x]. *)
Definition greater_than `{Host} (h : heap) (x y : value) : result bool :=
  less_than h y x.

(** [v.length] *)
Definition get_length (h : heap) (v : value) : result value :=
  match v with
  | VUndefined | VNull => Throw TypeError
  | VBool _ | VNum _ => Ok VUndefined
  | VStr s => Ok (VNum (num_of_nat (String.length s)))
  | VRef l =>
      match h !! l with
      | Some (OArray es) => Ok (VNum (num_of_nat (length es)))
      | Some (OFun n _) => Ok (VNum (num_of_nat n))
      | Some (OPlain ps) =>
          Ok (match own_get "length" ps with Some x => x | None => VUndefined end)
      | Some (ODate _) | None => Ok VUndefined
      end
  end.

(** The pairs [(k, v[k])] that [for (k in v)] visits, in order. *)
Definition indexed {A} (l : list A) : list (string * A) :=
  imap (fun i a => (index_name i, a)) l.

Definition enumerate (h : heap) (v : value) : list (string * value) :=
  match v with
  | VStr s =>
      indexed (map (fun c => VStr (String c EmptyString)) (list_ascii_of_string s))
  | VRef l =>
      match h !! l with
      | Some (OPlain ps) => ps
      | Some (OArray es) => indexed es
      | _ => []
      end
  | _ => []
  end.

(** [v[k]] on a plain object or an array that holds [k]; [undefined]
    otherwise. *)
Definition read_prop (h : heap) (v : value) (k : string) : value :=
  match own_get k (enumerate h v) with Some x => x | None => VUndefined end.

(** The elements of an array, as [forEach] visits them. *)
Definition array_elems (h : heap) (v : value) : list value :=
  match v with
  | VRef l => match h !! l with Some (OArray es) => es | _ => [] end
  | _ => []
  end.

(** [a.push(el)] on an array. *)
Definition push (a el : value) : M unit :=
  fun h => match a with
           | VRef l =>
               match h !! l with
               | Some (OArray es) => (Ok tt, <[l := OArray (es ++ [el])]> h)
               | _ => (Throw TypeError, h)
               end
           | _ => (Throw TypeError, h)
           end.

(** [o[k] = v].  The library assigns to one object only, the plain object
    it allocates for [result]; on anything else the assignment is left
    out. *)
Definition set_prop (o : value) (k : string) (v : value) : M unit :=
  fun h => match o with
           | VRef l =>
               match h !! l with
               | Some (OPlain ps) => (Ok tt, <[l := OPlain (own_set k v ps)]> h)
               | _ => (Ok tt, h)
               end
           | _ => (Ok tt, h)
           end.

Fixpoint forEach {A} (l : list A) (f : A -> M unit) : M unit :=
  match l with
  | [] => ret tt
  | x :: l' => _ <- f x ;; forEach l' f
  end.

(** Options of a field: the object literal passed to [Type.field]. *)
Definition options : Type := props value.

(** [opt.k], for a name that [Object.prototype] does not define. *)
Definition opt_get (opt : options) (k : string) : value :=
  match own_get k opt with Some v => v | None => VUndefined end.

Definition is_null (v : value) : bool :=
  match v with VNull => true | _ => false end.

(** [v === "s"] *)
Definition strict_eq_string (v : value) (s : string) : bool :=
  match v with VStr s' => String.eqb s' s | _ => false end.

(** A rule reads the value and the options and returns a message or
    [undefined]. *)
Definition rule : Type := heap -> value -> options -> result value.

(** ** Built-in field validation rules *)

Module rules.
Section WithHost.
Context `{Host}.

Definition maxLengthRule : rule := fun h val opt =>
  if ToBoolean (opt_get opt "maxLength") then
    len <-r get_length h val ;;
    gt <-r greater_than h len (opt_get opt "maxLength") ;;
    if (gt : bool) then
      s <-r ToString h (opt_get opt "maxLength") ;;
      Ok (VStr ("must not be greater than " +:+ s +:+ " characters"))
    else Ok VUndefined
  else Ok VUndefined.

Definition minLengthRule : rule := fun h val opt =>
  if ToBoolean (opt_get opt "minLength") then
    len <-r get_length h val ;;
    lt <-r less_than h len (opt_get opt "minLength") ;;
    if (lt : bool) then
      s <-r ToString h (opt_get opt "minLength") ;;
      Ok (VStr ("must be at least " +:+ s +:+ " characters"))
    else Ok VUndefined
  else Ok VUndefined.

Definition nullRule : rule := fun h val opt =>
  if negb (ToBoolean (opt_get opt "allowNull")) && is_null val
  then Ok (VStr "must not be null")
  else Ok VUndefined.

Definition undefinedRule : rule := fun h val opt =>
  if negb (ToBoolean (opt_get opt "allowUndefined"))
     && String.eqb (typeof h val) "undefined"
  then Ok (VStr "must be defined")
  else Ok VUndefined.

Definition minRule : rule := fun h val opt =>
  if is_null val || String.eqb (typeof h val) "undefined" then Ok VUndefined
  else if ToBoolean (opt_get opt "min") then
    lt <-r less_than h val (opt_get opt "min") ;;
    if (lt : bool) then
      s <-r ToString h (opt_get opt "min") ;;
      Ok (VStr ("value must be at least " +:+ s))
    else Ok VUndefined
  else Ok VUndefined.

Definition maxRule : rule := fun h val opt =>
  if is_null val || String.eqb (typeof h val) "undefined" then Ok VUndefined
  else if ToBoolean (opt_get opt "max") then
    gt <-r greater_than h val (opt_get opt "max") ;;
    if (gt : bool) then
      s <-r ToString h (opt_get opt "max") ;;
      Ok (VStr ("value must not be greater than " +:+ s))
    else Ok VUndefined
  else Ok VUndefined.

Definition isStringRule : rule := fun h val opt =>
  if is_null val || String.eqb (typeof h val) "undefined" then Ok VUndefined
  else if negb (String.eqb (typeof h val) "string")
  then Ok (VStr "value must be a string")
  else Ok VUndefined.

(** A value whose [typeof] is ["number"] is a [VNum]. *)
Definition isIntRule : rule := fun h val opt =>
  if is_null val || String.eqb (typeof h val) "undefined" then Ok VUndefined
  else match val with
       | VNum n =>
           if has_fraction n then
             s <-r ToString h val ;;
             Ok (VStr ("the number " +:+ s +:+ " is not an integer"))
           else Ok VUndefined
       | _ => Ok (VStr "value must be a number")
       end.

Definition isNumberRule : rule := fun h val opt =>
  if is_null val || String.eqb (typeof h val) "undefined" then Ok VUndefined
  else if negb (String.eqb (typeof h val) "number")
  then Ok (VStr "value must be a number")
  else Ok VUndefined.

Definition isArrayRule : rule := fun h val opt =>
  if is_null val || String.eqb (typeof h val) "undefined" then Ok VUndefined
  else if negb (isArray h val) then Ok (VStr "value is not an array")
  else Ok VUndefined.

(** [val == null] holds of [null] and of [undefined]. *)
Definition isDateRule : rule := fun h val opt =>
  if (match val with VNull | VUndefined => true | _ => false end
      || String.eqb (typeof h val) "undefined") then Ok VUndefined
  else if negb (instanceof_Date h val) then Ok (VStr "value is not a date")
  else Ok VUndefined.

End WithHost.
End rules.

(** ** Field types *)

(** A field type is an object with a [name], a list of [rules] and
    possibly a [coerce] function.  [rules] is absent on an object that is
    not a proper field type (see [Type'.field]); [coerce] is declared with
    two parameters, [val] and [opt]. *)
Module FieldType.
Record t : Type := mk {
  name : string;
  rules : option (list rule);
  coerce : option (value -> value -> M value)
}.
End FieldType.

Section FieldTypes.
Context `{Host}.

(** [typeof val] is a string, so [!type.toString] is false. *)
Definition stringFieldType : FieldType.t :=
  {| FieldType.name := "string";
     FieldType.rules := Some
       [ rules.maxLengthRule; rules.minLengthRule; rules.nullRule;
         rules.undefinedRule; rules.isStringRule ];
     FieldType.coerce := Some (fun val opt h =>
       let type := typeof h val in
       if is_null val || String.eqb type "undefined"
          || String.eqb type "string" || false
       then (Ok val, h)
       else (call_toString h val, h)) |}.

Definition arrayFieldType : FieldType.t :=
  {| FieldType.name := "array";
     FieldType.rules := Some
       [ rules.maxLengthRule; rules.minLengthRule; rules.nullRule;
         rules.undefinedRule; rules.isArrayRule ];
     FieldType.coerce := Some (fun val opt h =>
       if is_null val || String.eqb (typeof h val) "undefined"
          || negb (isArray h val)
       then (Ok val, h)
       else
         (newArray <- alloc (OArray []) ;;
          _ <- forEach (array_elems h val) (fun el => push newArray el) ;;
          ret newArray) h) |}.

Definition intFieldType : FieldType.t :=
  {| FieldType.name := "int";
     FieldType.rules := Some
       [ rules.maxRule; rules.minRule; rules.nullRule;
         rules.undefinedRule; rules.isIntRule ];
     FieldType.coerce := Some (fun val opt => ret val) |}.

Definition numberFieldType : FieldType.t :=
  {| FieldType.name := "number";
     FieldType.rules := Some
       [ rules.maxRule; rules.minRule; rules.nullRule;
         rules.undefinedRule; rules.isNumberRule ];
     FieldType.coerce := Some (fun val opt => ret val) |}.

(** The variable [type] is declared further down the function: when the
    first test reads it, it is still [undefined]. *)
Definition datetimeFieldType : FieldType.t :=
  {| FieldType.name := "datetime";
     FieldType.rules := Some
       [ rules.maxRule; rules.minRule; rules.nullRule;
         rules.undefinedRule; rules.isDateRule ];
     FieldType.coerce := Some (fun val opt h =>
       let type := VUndefined in
       if is_null val || strict_eq_string type "undefined" then (Ok val, h)
       else
         let type := typeof h val in
         if String.eqb type "string" then
           match val with
           | VStr s =>
               let millis := Date_parse s in
               if PrimFloat.is_nan millis
               then (Throw (Thrown (VStr ("not a valid date string: '" +:+ s +:+ "'"))), h)
               else alloc (ODate millis) h
           | _ => (Ok val, h)
           end
         else (Ok val, h)) |}.
End FieldTypes.

(** ** Fields *)

Module Field.
Record t : Type := mk {
  fieldType : FieldType.t;
  name : string;
  typeOptions : options
}.

(** [new Field(opt)]: options that are missing become [{}]. *)
Definition new (fieldType : FieldType.t) (name : string)
    (typeOptions : option options) : t :=
  {| fieldType := fieldType;
     name := name;
     typeOptions := match typeOptions with Some o => o | None => [] end |}.

Definition defaultCoerce (self : t) (h : heap) (val : value) : value :=
  if negb (String.eqb (typeof h (opt_get (typeOptions self) "defaultValue")) "undefined")
     && String.eqb (typeof h val) "undefined"
  then opt_get (typeOptions self) "defaultValue"
  else val.

(** The field type's [coerce] is called with one argument: its [opt] is
    [undefined]. *)
Definition coerce (self : t) (val : value) : M value :=
  fun h =>
    let afterDefault := defaultCoerce self h val in
    match FieldType.coerce (fieldType self) with
    | Some c => c afterDefault VUndefined h
    | None => (Ok afterDefault, h)
    end.

Fixpoint run_rules (rs : list rule) (h : heap) (val : value) (opt : options)
    (errors : list value) : result (list value) :=
  match rs with
  | [] => Ok errors
  | r :: rs' =>
      currentError <-r r h val opt ;;
      run_rules rs' h val opt
        (if ToBoolean currentError then errors ++ [currentError] else errors)
  end.

Definition validate (self : t) (h : heap) (val : value) : result (list value) :=
  match FieldType.rules (fieldType self) with
  | Some rs => run_rules rs h val (typeOptions self) []
  | None => Throw TypeError
  end.
End Field.

(** ** Types *)

Module Type'.
Record t : Type := mk {
  name : string;
  fields : props Field.t
}.

(** [new Type(name, model)]; in this embedding a name is always a string. *)
Definition new (name : string) : result t :=
  if Nat.eqb (String.length name) 0
  then Throw (ModelMeError "Type name must not be empty string")
  else Ok {| name := name; fields := [] |}.

(** What [model.getFieldType] hands out for a name that only
    [Object.prototype] defines: an object without [rules] and [coerce]. *)
Definition inherited_member (k : string) : FieldType.t :=
  {| FieldType.name := k; FieldType.rules := None; FieldType.coerce := None |}.

(** [self.field(fieldName, typeName, typeOptions)]; [getFieldType] is the
    method of the model that owns the type. *)
Definition field (getFieldType : string -> lookup_result FieldType.t)
    (self : t) (fieldName typeName : string) (typeOptions : option options)
    : result t :=
  match getFieldType typeName with
  | Absent => Throw (ModelMeError ("The type '" +:+ typeName +:+ "' is not valid"))
  | found =>
      let fieldType :=
        match found with Own ft => ft | _ => inherited_member typeName end in
      if js_in fieldName (fields self)
      then Throw (ModelMeError ("The field '" +:+ fieldName
                                +:+ "' already exists on type '" +:+ name self +:+ "'"))
      else Ok {| name := name self;
                 fields := own_set fieldName (Field.new fieldType fieldName typeOptions)
                                   (fields self) |}
  end.
End Type'.

(** ** The model *)

Inductive message : Type :=
| Msg (v : value)        (* what a rule returned *)
| Caught (ex : exn).     (* what the [catch] clause received *)

Record FieldError : Type := { field : string; message_of : message }.

Record ValidationResult : Type := {
  entity : value;
  errors : list FieldError
}.

Record fieldInfo : Type := {
  fi_value : value;
  fi_field : option Field.t
}.

Module Model.
Record t : Type := mk {
  fieldTypes : props FieldType.t;
  types : props Type'.t
}.

Definition addFieldType (fieldType : FieldType.t) (self : t) : result t :=
  if js_in (FieldType.name fieldType) (fieldTypes self)
  then Throw (ModelMeError ("The field type '" +:+ FieldType.name fieldType
                            +:+ "' already exists"))
  else Ok {| fieldTypes := own_set (FieldType.name fieldType) fieldType (fieldTypes self);
             types := types self |}.

Definition getFieldType (name : string) (self : t) : lookup_result FieldType.t :=
  js_get name (fieldTypes self).

(** [self.type(name)] *)
Definition type (name : string) (self : t) : result t :=
  if js_in name (types self)
  then Throw (ModelMeError ("A type with name '" +:+ name +:+ "' already exists"))
  else
    newType <-r Type'.new name ;;
    Ok {| fieldTypes := fieldTypes self;
          types := own_set name newType (types self) |}.

(** [field(fieldName, fieldTypeName, typeOptions)] called on the type that
    [self.type(typeName)] returned earlier: the type object is shared with
    [types], so the new field shows there.  Without such a type there is
    no object to call [field] on. *)
Definition declare_field (typeName fieldName fieldTypeName : string)
    (typeOptions : option options) (self : t) : result t :=
  match own_get typeName (types self) with
  | Some ty =>
      ty' <-r Type'.field (fun n => getFieldType n self) ty fieldName
                fieldTypeName typeOptions ;;
      Ok {| fieldTypes := fieldTypes self;
            types := replace_own typeName ty' (types self) |}
  | None => Throw TypeError
  end.

(** The bodies of the two loops of [getFieldSummary], for property names
    other than [__proto__]: [fieldInfos[fieldName] = ...] creates or
    replaces an own property. *)
Definition add_value (fieldInfos : props fieldInfo) (entry : string * value)
    : props fieldInfo :=
  let '(fieldName, v) := entry in
  own_set fieldName {| fi_value := v; fi_field := None |} fieldInfos.

(** [fieldInfos[fieldName].field = ...] on a name that [Object.prototype]
    alone defines writes to that member and leaves [fieldInfos] as it is. *)
Definition add_field (fieldInfos : props fieldInfo) (entry : string * Field.t)
    : props fieldInfo :=
  let '(fieldName, f) := entry in
  if js_in fieldName fieldInfos then
    match own_get fieldName fieldInfos with
    | Some fi =>
        replace_own fieldName
          {| fi_value := fi_value fi; fi_field := Some f |} fieldInfos
    | None => fieldInfos
    end
  else
    own_set fieldName {| fi_value := VUndefined; fi_field := Some f |} fieldInfos.

(** [type.fields] throws on [undefined]; on an inherited member of
    [types] it is [undefined], and the second loop has nothing to visit. *)
Definition getFieldSummary (obj : value) (type : lookup_result Type'.t)
    : M (props fieldInfo) :=
  fun h =>
    let fieldInfos := fold_left add_value (enumerate h obj) [] in
    match type with
    | Absent => (Throw TypeError, h)
    | Inherited => (Ok fieldInfos, h)
    | Own ty => (Ok (fold_left add_field (Type'.fields ty) fieldInfos), h)
    end.

(** The body of the loop over the field summary, for a summary whose
    prototype is [Object.prototype]: the loop visits the own entries, each
    of them an object, so that reading [fieldInfo.field] cannot fail.
    [fieldName] is the name the loop header assigned: nothing the body
    calls assigns that global again. *)
Definition validate_field (result : value) (fieldName : string)
    (fieldInfo : fieldInfo) (errors : list FieldError) : M (list FieldError) :=
  match fi_field fieldInfo with
  | Some f =>
      try_catch
        (coerced <- Field.coerce f (fi_value fieldInfo) ;;
         fieldErrors <- lift_read (fun h => Field.validate f h coerced) ;;
         _ <- set_prop result fieldName coerced ;;
         ret (errors ++ map (fun err => {| field := fieldName; message_of := Msg err |})
                            fieldErrors))
        (fun ex => ret (errors ++ [{| field := fieldName; message_of := Caught ex |}]))
  | None => ret errors
  end.

Fixpoint validate_fields (result : value) (fieldSummary : props fieldInfo)
    (errors : list FieldError) : M (list FieldError) :=
  match fieldSummary with
  | [] => ret errors
  | (fieldName, fieldInfo) :: rest =>
      errors' <- validate_field result fieldName fieldInfo errors ;;
      validate_fields result rest errors'
  end.

Section WithHost.
Context `{Host}.

(** [new Model()]: two empty maps, then the default field types. *)
Definition empty : t := {| fieldTypes := []; types := [] |}.

Definition new : result t :=
  m <-r addFieldType stringFieldType empty ;;
  m <-r addFieldType intFieldType m ;;
  m <-r addFieldType datetimeFieldType m ;;
  addFieldType arrayFieldType m.

(** [!typeName in types] reads [(!typeName) in types]: the key looked
    up is the boolean [!typeName] turned into a property name. *)
Definition validate (self : t) (data : value) (typeName : string)
    : M ValidationResult :=
  if js_in (if negb (ToBoolean (VStr typeName)) then "true" else "false")
           (types self)
  then throw (ModelMeError ("The type '" +:+ typeName +:+ "' does not exist"))
  else
    obj <- match data with
           | VStr text => JSON_parse text
           | _ => fun h =>
               if negb (String.eqb (typeof h data) "object")
               then (Throw (ModelMeError
                 "Value passed to data param of validate() function must be an object or a json string"), h)
               else (Ok data, h)
           end ;;
    let type := js_get typeName (types self) in
    fieldSummary <- getFieldSummary obj type ;;
    result <- alloc (OPlain []) ;;
    errors <- validate_fields result fieldSummary [] ;;
    ret {| entity := if (0 <? length errors)%nat then VNull else result;
           errors := errors |}.
End WithHost.
End Model.

(** ** A host to run examples on

    [example_host] answers the built-ins on the operands the examples
    below use: [Date.parse] knows one ISO instant, [JSON.parse] the texts
    [null] and [{}], [<] compares two numbers or two strings, and string
    conversion covers strings, integers, booleans, [null] and [undefined].
    Anywhere else it throws [not_covered]. *)

Definition not_covered : exn := Thrown (VStr "not covered by the example host").

Definition integer_value (x : float) : option Z :=
  match Prim2SF x with
  | S754_zero _ => Some 0%Z
  | S754_finite s m e =>
      if (0 <=? e)%Z then Some ((if s then -1 else 1) * (Z.pos m * 2 ^ e))%Z
      else if Z.eqb (Z.pos m mod 2 ^ (- e)) 0
           then Some ((if s then -1 else 1) * (Z.pos m / 2 ^ (- e)))%Z
           else None
  | _ => None
  end.

Definition example_ToString (h : heap) (v : value) : result string :=
  match v with
  | VUndefined => Ok "undefined"
  | VNull => Ok "null"
  | VBool b => Ok (if b then "true" else "false")
  | VStr s => Ok s
  | VNum n =>
      match integer_value n with
      | Some z =>
          if (z <? 0)%Z then Ok ("-" +:+ index_name (Z.to_nat (- z)))
          else Ok (index_name (Z.to_nat z))
      | None => Throw not_covered
      end
  | VRef _ => Throw not_covered
  end.

Definition example_less_than (h : heap) (x y : value) : result bool :=
  match x, y with
  | VNum a, VNum b => Ok (PrimFloat.ltb a b)
  | VStr a, VStr b => Ok (String.ltb a b)
  | _, _ => Throw not_covered
  end.

Definition example_JSON_parse (text : string) : M value :=
  if String.eqb text "null" then ret VNull
  else if String.eqb text "{}" then alloc (OPlain [])
  else throw SyntaxError.

Definition example_Date_parse (s : string) : float :=
  if String.eqb s "2014-01-01T12:00:00.000Z" then 1388577600000%float
  else PrimFloat.nan.

Definition example_host : Host.
Proof.
  refine {| Date_parse := example_Date_parse;
            JSON_parse := example_JSON_parse;
            less_than := example_less_than;
            ToString := example_ToString;
            call_toString := fun h v => s <-r example_ToString h v ;; Ok (VStr s);
            JSON_parse_extends := _ |}.
  intros s h r h'. unfold example_JSON_parse.
  destruct (String.eqb s "null"); [intros [= _ <-]; reflexivity|].
  destruct (String.eqb s "{}"); [|intros [= _ <-]; reflexivity].
  unfold alloc. intros [= _ <-].
  apply insert_subseteq, not_elem_of_dom, is_fresh.
Defined.

(** ** Example schemas *)

Definition unwrap {A} (d : A) (r : result A) : A :=
  match r with Ok a => a | Throw _ => d end.

Section Examples.
Context `{Host}.

(** [Person { name: string[1..20], age: int[0..200] }] *)
Definition simplePersonModel : Model.t := unwrap Model.empty (
  m <-r Model.new ;;
  m <-r Model.type "Person" m ;;
  m <-r Model.declare_field "Person" "name" "string"
          (Some [("minLength", VNum 1); ("maxLength", VNum 20)]) m ;;
  Model.declare_field "Person" "age" "int"
          (Some [("min", VNum 0); ("max", VNum 200)]) m).

(** The model of the tests, [createSimplePersonModel]:
    [Person { name: string[1..20], age: int[0..200], created: datetime }],
    the default of [created] being the function at location 1. *)
Definition testPersonModel : Model.t := unwrap Model.empty (
  m <-r Model.new ;;
  m <-r Model.type "Person" m ;;
  m <-r Model.declare_field "Person" "name" "string"
          (Some [("minLength", VNum 1); ("maxLength", VNum 20)]) m ;;
  m <-r Model.declare_field "Person" "age" "int"
          (Some [("min", VNum 0); ("max", VNum 200)]) m ;;
  Model.declare_field "Person" "created" "datetime"
          (Some [("defaultValue", VRef 1%positive)]) m).

(** [Person { name: string[allowNull, max 20] }] *)
Definition nullableNameModel : Model.t := unwrap Model.empty (
  m <-r Model.new ;;
  m <-r Model.type "Person" m ;;
  Model.declare_field "Person" "name" "string"
    (Some [("allowNull", VBool true); ("maxLength", VNum 20)]) m).

(** Two declared types, one of them named ["false"]. *)
Definition falseTypeModel : Model.t := unwrap Model.empty (
  m <-r Model.new ;;
  m <-r Model.type "false" m ;;
  m <-r Model.type "Person" m ;;
  Model.declare_field "Person" "name" "string" None m).

(** [Person { name: string, created: datetime, friends: array of complex
    Person }]; the options of [friends] refer to the element-type
    descriptor and to the default array, two objects of the heap. *)
Definition recursivePersonModel : Model.t := unwrap Model.empty (
  m <-r Model.new ;;
  m <-r Model.type "Person" m ;;
  m <-r Model.declare_field "Person" "name" "string" None m ;;
  m <-r Model.declare_field "Person" "created" "datetime" None m ;;
  Model.declare_field "Person" "friends" "array"
    (Some [("elementType", VRef 9%positive); ("defaultValue", VRef 8%positive)]) m).

(** The type [Person] of [datedPersonModel] below, as its declarations
    leave it. *)
Definition datedPerson : Type'.t :=
  {| Type'.name := "Person";
     Type'.fields :=
       [("name", Field.new stringFieldType "name" None);
        ("created", Field.new datetimeFieldType "created" None);
        ("friends", Field.new arrayFieldType "friends"
                      (Some [("defaultValue", VRef 8%positive)]))] |}.

(** [Person { name: string, created: datetime, friends: array }] *)
Definition datedPersonModel : Model.t := unwrap Model.empty (
  m <-r Model.new ;;
  m <-r Model.type "Person" m ;;
  m <-r Model.declare_field "Person" "name" "string" None m ;;
  m <-r Model.declare_field "Person" "created" "datetime" None m ;;
  Model.declare_field "Person" "friends" "array"
    (Some [("defaultValue", VRef 8%positive)]) m).

End Examples.

(** A person with two friends: one whose name is [null], one whose date
    of creation is a string. *)
Definition family : heap :=
  {[ 1%positive := OPlain [("name", VStr "Graeme"); ("created", VRef 2%positive);
                           ("friends", VRef 3%positive)];
     2%positive := ODate 1388577600000%float;
     3%positive := OArray [VRef 4%positive; VRef 5%positive];
     4%positive := OPlain [("name", VNull); ("created", VRef 2%positive)];
     5%positive := OPlain [("name", VStr "Hayley");
                           ("created", VStr "2014-01-01 12:00")];
     8%positive := OArray [];
     9%positive := OPlain [("mode", VStr "complex"); ("type", VStr "Person")] ]}.

(** A person created at a [Date], with one friend. *)
Definition dated_family : heap :=
  {[ 1%positive := OPlain [("name", VStr "Graeme"); ("created", VRef 2%positive);
                           ("friends", VRef 3%positive)];
     2%positive := ODate 1388577600000%float;
     3%positive := OArray [VRef 4%positive];
     4%positive := OPlain [("name", VStr "Hayley")];
     8%positive := OArray [] ]}.


(** A person without a date of creation, and the function
    [function() { return new Date(); }] that the model of the tests gives
    as the default; the [Date] at location 2 stands for what a call
    would return. *)
Definition undated_person : heap :=
  {[ 1%positive := OFun 0 (VRef 2%positive);
     2%positive := ODate 1388577600000%float;
     3%positive := OPlain [("name", VStr "Graeme"); ("age", VNum 27)] ]}.

(** ** Notions the properties are stated with *)

Section Notions.
Context `{Host}.

(** The five field types the library defines. *)
Definition built_in (ft : FieldType.t) : Prop :=
  ft = stringFieldType \/ ft = intFieldType \/ ft = numberFieldType
  \/ ft = datetimeFieldType \/ ft = arrayFieldType.

(** A value of the shape its field type stands for. *)
Inductive correct_shape (h : heap) : FieldType.t -> value -> Prop :=
| shape_string (s : string) : correct_shape h stringFieldType (VStr s)
| shape_int (n : float) : correct_shape h intFieldType (VNum n)
| shape_datetime (l : loc) (t : float) :
    h !! l = Some (ODate t) -> correct_shape h datetimeFieldType (VRef l).

End Notions.

(** [null] and [undefined], the two values that stand for no value. *)
Definition null_or_undefined (v : value) : Prop := v = VNull \/ v = VUndefined.

(** A field type only allocates when its [coerce] leaves every object that
    exists before the call as it is. *)
Definition only_allocates (ft : FieldType.t) : Prop :=
  forall c, FieldType.coerce ft = Some c ->
  forall (v o : value) (h : heap) (r : result value) (h' : heap),
    c v o h = (r, h') -> h ⊆ h'.

(** [h'] holds every object of [h] unchanged, except perhaps the one at [lr]. *)
Definition keeps_others (lr : loc) (h h' : heap) : Prop :=
  forall l o, l <> lr -> h !! l = Some o -> h' !! l = Some o.

(** What one round of the loop of [Model.validate] leaves behind.  The
    round never throws; when it reports no error, the field was coerced in
    the heap of the round and the coerced value stored under its name. *)
Definition round_stored (lr : loc) (k : string) (fi : fieldInfo)
    (h h' : heap) (ps ps' : props value) : Prop :=
  match fi_field fi with
  | None => ps' = ps
  | Some f =>
      exists c h1, Field.coerce f (fi_value fi) h = (Ok c, h1)
                   /\ h ⊆ h1 /\ h' = <[lr := OPlain ps']> h1
                   /\ ps' = own_set k c ps
  end.





(** The results of the rules on a value, in order, up to the first
    exception. *)
Fixpoint rule_results (rs : list rule) (h : heap) (val : value) (opt : options)
    : result (list value) :=
  match rs with
  | [] => Ok []
  | r :: rs' =>
      e <-r r h val opt ;;
      es <-r rule_results rs' h val opt ;;
      Ok (e :: es)
  end.

(** A field rejects a value in a heap when coercing it there throws, or
    validating the coerced value throws or returns some error; it rejects
    a value when it does so in every heap. *)
Definition rejects_in (f : Field.t) (h : heap) (v : value) : Prop :=
  match Field.coerce f v h with
  | (Throw _, _) => True
  | (Ok coerced, h1) =>
      match Field.validate f h1 coerced with
      | Throw _ => True
      | Ok fieldErrors => fieldErrors <> []
      end
  end.

Definition rejects (f : Field.t) (v : value) : Prop :=
  forall h, rejects_in f h v.

(** An object whose conversion to a primitive runs the methods of the
    engine: it has no [toString] and no [valueOf] of its own. *)
Definition data_object (o : obj) : bool :=
  match o with
  | OPlain ps => negb (has_own "toString" ps) && negb (has_own "valueOf" ps)
  | OArray _ | ODate _ | OFun _ _ => true
  end.

(** A heap of such objects. *)
Definition no_methods (h : heap) : Prop :=
  map_Forall (fun _ o => data_object o = true) h.

(** A type as [Type.field] builds it on a model without custom field
    types: no field has a name that [Object.prototype] defines
    ([__proto__] is one), and every field is of a built-in field type. *)
Definition built_in_fields `{Host} (ty : Type'.t) : Prop :=
  forall k f, (k, f) ∈ Type'.fields ty ->
    inherited k = false /\ built_in (Field.fieldType f).

(** The calls of [Model.validate] that the properties about whole calls
    cover: the root value is not JSON text and has no own property
    [__proto__], no object of the heap has a conversion method of its own,
    and the type named, if declared, is made of built-in fields. *)
Definition plain_call `{Host} (self : Model.t) (data : value)
    (typeName : string) (h : heap) : Prop :=
  (forall s, data <> VStr s)
  /\ has_own "__proto__" (enumerate h data) = false
  /\ no_methods h
  /\ (forall ty, js_get typeName (Model.types self) = Own ty -> built_in_fields ty).

(** A plain call that returns, on a plain object, against a declared
    type; property names and field names are distinct. *)
Definition object_run `{Host} (self : Model.t) (typeName : string) (ty : Type'.t)
    (lo : loc) (ips : props value) (h : heap) (r : ValidationResult)
    (h' : heap) : Prop :=
  own_get typeName (Model.types self) = Some ty
  /\ NoDup (Type'.fields ty).*1
  /\ h !! lo = Some (OPlain ips)
  /\ NoDup ips.*1
  /\ plain_call self (VRef lo) typeName h
  /\ Model.validate self (VRef lo) typeName h = (Ok r, h').

Section Shapes.
Context `{Host}.

(** A defined value that is not of the shape of an int, number, datetime
    or array field, with the message of the rule that says so. *)
Inductive wrong_shape (h : heap) : FieldType.t -> value -> string -> Prop :=
| wrong_int (v : value) :
    String.eqb (typeof h v) "number" = false ->
    wrong_shape h intFieldType v "value must be a number"
| wrong_number (v : value) :
    String.eqb (typeof h v) "number" = false ->
    wrong_shape h numberFieldType v "value must be a number"
| wrong_datetime (v : value) :
    String.eqb (typeof h v) "string" = false -> instanceof_Date h v = false ->
    wrong_shape h datetimeFieldType v "value is not a date"
| wrong_array (v : value) :
    isArray h v = false ->
    wrong_shape h arrayFieldType v "value is not an array".

(** No bound of the options is passed by the value: each of the four is
    either falsy (missing, or 0) or answered by the comparison with
    [false]. *)
Definition within_bounds (h : heap) (opt : options) (v : value) : Prop :=
  (ToBoolean (opt_get opt "maxLength") = false
   \/ exists len, get_length h v = Ok len
                  /\ greater_than h len (opt_get opt "maxLength") = Ok false)
  /\ (ToBoolean (opt_get opt "minLength") = false
      \/ exists len, get_length h v = Ok len
                     /\ less_than h len (opt_get opt "minLength") = Ok false)
  /\ (ToBoolean (opt_get opt "max") = false
      \/ greater_than h v (opt_get opt "max") = Ok false)
  /\ (ToBoolean (opt_get opt "min") = false
      \/ less_than h v (opt_get opt "min") = Ok false).

(** A defined value beyond a bound of the options of a field type that
    checks this bound, with the message that says so. *)
Inductive beyond_bound (h : heap) (opt : options)
    : FieldType.t -> value -> string -> Prop :=
| above_max (ft : FieldType.t) (v : value) (s : string) :
    ft = intFieldType \/ ft = numberFieldType \/ ft = datetimeFieldType ->
    v <> VNull -> v <> VUndefined ->
    ToBoolean (opt_get opt "max") = true ->
    greater_than h v (opt_get opt "max") = Ok true ->
    ToString h (opt_get opt "max") = Ok s ->
    beyond_bound h opt ft v ("value must not be greater than " +:+ s)
| below_min (ft : FieldType.t) (v : value) (s : string) :
    ft = intFieldType \/ ft = numberFieldType \/ ft = datetimeFieldType ->
    v <> VNull -> v <> VUndefined ->
    ToBoolean (opt_get opt "min") = true ->
    less_than h v (opt_get opt "min") = Ok true ->
    ToString h (opt_get opt "min") = Ok s ->
    beyond_bound h opt ft v ("value must be at least " +:+ s)
| too_long (ft : FieldType.t) (v len : value) (s : string) :
    ft = stringFieldType \/ ft = arrayFieldType ->
    ToBoolean (opt_get opt "maxLength") = true ->
    get_length h v = Ok len ->
    greater_than h len (opt_get opt "maxLength") = Ok true ->
    ToString h (opt_get opt "maxLength") = Ok s ->
    beyond_bound h opt ft v ("must not be greater than " +:+ s +:+ " characters")
| too_short (ft : FieldType.t) (v len : value) (s : string) :
    ft = stringFieldType \/ ft = arrayFieldType ->
    ToBoolean (opt_get opt "minLength") = true ->
    get_length h v = Ok len ->
    less_than h len (opt_get opt "minLength") = Ok true ->
    ToString h (opt_get opt "minLength") = Ok s ->
    beyond_bound h opt ft v ("must be at least " +:+ s +:+ " characters").

End Shapes.

(** ** Reasoning about the monad *)

Lemma bind_Ok_inv {A B} (m : M A) (k : A -> M B) (h h' : heap) (b : B) :
  bind m k h = (Ok b, h') ->
  exists a h1, m h = (Ok a, h1) /\ k a h1 = (Ok b, h').
Proof.
  unfold bind. destruct (m h) as [[a|e] h1]; [eauto|discriminate].
Qed.

Lemma alloc_Ok_inv (o : obj) (h h' : heap) (v : value) :
  alloc o h = (Ok v, h') ->
  exists l, v = VRef l /\ h !! l = None /\ h' = <[l := o]> h.
Proof.
  unfold alloc. intros [= <- <-]. eexists. split; [reflexivity|].
  split; [|reflexivity]. apply not_elem_of_dom, is_fresh.
Qed.

Lemma alloc_extends (o : obj) (h : heap) (r : result value) (h' : heap) :
  alloc o h = (r, h') -> h ⊆ h'.
Proof.
  unfold alloc. intros [= _ <-].
  apply insert_subseteq, not_elem_of_dom, is_fresh.
Qed.

(** ** The result of [Model.validate] *)

(** C2. Whenever [Model.validate] returns, [entity] is [null] exactly when
    [errors] is not empty, and [entity] is not [null] exactly when [errors]
    is empty: one of the two is present, never both. *)
Theorem validate_entity_null_iff_errors `{Host} (self : Model.t) (data : value)
    (typeName : string) (h h' : heap) (r : ValidationResult) :
  Model.validate self data typeName h = (Ok r, h') ->
  (entity r = VNull <-> errors r <> []) /\ (entity r <> VNull <-> errors r = []).
Proof.
  unfold Model.validate.
  destruct (js_in _ _); [discriminate|].
  intros (obj & h1 & _ & Hrest)%bind_Ok_inv.
  apply bind_Ok_inv in Hrest as (fieldSummary & h2 & _ & Hrest).
  apply bind_Ok_inv in Hrest as (result & h3 & Halloc & Hrest).
  apply bind_Ok_inv in Hrest as (errs & h4 & _ & Hret).
  apply alloc_Ok_inv in Halloc as (l & -> & _ & _).
  injection Hret as <- _. simpl.
  destruct errs as [|e errs]; simpl; split; split; congruence.
Qed.

(** On the model of the tests, [validate(null, "Person")] returns two
    errors and a [null] entity. *)
Lemma validate_entity_null_iff_errors_witness :
  let r := {| entity := VNull;
              errors := [ {| field := "name"; message_of := Caught TypeError |};
                          {| field := "age"; message_of := Msg (VStr "must be defined") |} ] |} in
  let h' : heap := {[ 1%positive := OPlain [("age", VUndefined)] ]} in
  @Model.validate example_host (@simplePersonModel example_host) VNull "Person" ∅
    = (Ok r, h')
  /\ (entity r = VNull <-> errors r <> []) /\ (entity r <> VNull <-> errors r = []).
Proof.
  intros r h'.
  assert (@Model.validate example_host (@simplePersonModel example_host)
            VNull "Person" ∅ = (Ok r, h')) as Hrun by (vm_compute; reflexivity).
  split; [exact Hrun|].
  exact (@validate_entity_null_iff_errors example_host
           (@simplePersonModel example_host) VNull "Person" ∅ h' r Hrun).
Defined.

(** ** Coercion of a field *)

Lemma typeof_undefined (h : heap) (v : value) :
  String.eqb (typeof h v) "undefined" = true <-> v = VUndefined.
Proof.
  destruct v as [| |b|n|s|l]; simpl; try (split; [discriminate|congruence]).
  - split; reflexivity.
  - destruct (h !! l) as [[]|]; (split; [discriminate|congruence]).
Qed.

Lemma defaultCoerce_defined (self : Field.t) (h : heap) (v : value) :
  v <> VUndefined -> Field.defaultCoerce self h v = v.
Proof.
  intros Hv. unfold Field.defaultCoerce.
  destruct (String.eqb (typeof h v) "undefined") eqn:E.
  - apply typeof_undefined in E. contradiction.
  - rewrite andb_false_r. reflexivity.
Qed.

(** C10. [null] never triggers the default: [defaultCoerce] hands [null]
    back whatever the options hold, and [Field.coerce(null)] is the field
    type's [coerce] applied to [null] ([null] itself without a [coerce]). *)
Theorem coerce_null_skips_default (self : Field.t) (h : heap) :
  Field.defaultCoerce self h VNull = VNull /\
  Field.coerce self VNull h =
    match FieldType.coerce (Field.fieldType self) with
    | Some c => c VNull VUndefined h
    | None => (Ok VNull, h)
    end.
Proof.
  assert (Field.defaultCoerce self h VNull = VNull) as Hd
    by (apply defaultCoerce_defined; discriminate).
  split; [exact Hd|].
  unfold Field.coerce. rewrite Hd. reflexivity.
Qed.

(** With a default in the options, [null] still comes back from a string
    field. *)
Example coerce_null_with_default `{Host} (h : heap) :
  Field.coerce (Field.new stringFieldType "name" (Some [("defaultValue", VStr "-")]))
    VNull h = (Ok VNull, h).
Proof. reflexivity. Qed.

Section Coercion.
Context `{Host}.

Lemma coerce_correct_shape (self : Field.t) (h : heap) (v : value) :
  correct_shape h (Field.fieldType self) v ->
  Field.coerce self v h = (Ok v, h).
Proof.
  intros Hs. unfold Field.coerce.
  rewrite defaultCoerce_defined by (inversion Hs; discriminate).
  inversion Hs as [s Hft Hv | n Hft Hv | l t Hl Hft Hv]; simpl.
  - reflexivity.
  - reflexivity.
  - rewrite Hl. reflexivity.
Qed.

(** C8. On a string for a string field, a number for an int field and a
    [Date] for a datetime field, coercing twice is coercing once: the first
    coercion returns the value itself and leaves the heap as it was. *)
Theorem coerce_idempotent (self : Field.t) (h : heap) (v : value) :
  correct_shape h (Field.fieldType self) v ->
  (v' <- Field.coerce self v ;; Field.coerce self v') h = Field.coerce self v h
  /\ Field.coerce self v h = (Ok v, h).
Proof.
  intros Hs. pose proof (coerce_correct_shape self h v Hs) as Hc.
  split; [|exact Hc].
  unfold bind. rewrite Hc. exact Hc.
Qed.

End Coercion.

Lemma coerce_idempotent_witness :
  let created := Field.new (@datetimeFieldType example_host) "created" None in
  let h : heap := {[ 1%positive := ODate 1388577600000%float ]} in
  (v' <- Field.coerce created (VRef 1%positive) ;; Field.coerce created v') h
    = Field.coerce created (VRef 1%positive) h
  /\ Field.coerce created (VRef 1%positive) h = (Ok (VRef 1%positive), h).
Proof.
  intros created h.
  apply (@coerce_idempotent example_host created h (VRef 1%positive)).
  apply (shape_datetime h 1%positive 1388577600000%float). reflexivity.
Defined.

(** ** Rules on [null] and [undefined] *)

Section Rules.
Context `{Host}.

(** The rules that test the value before anything else return nothing on
    [null] and on [undefined], whatever the options. *)
Lemma guarded_rules_silent (h : heap) (v : value) (opt : options) :
  null_or_undefined v ->
  rules.minRule h v opt = Ok VUndefined /\
  rules.maxRule h v opt = Ok VUndefined /\
  rules.isStringRule h v opt = Ok VUndefined /\
  rules.isIntRule h v opt = Ok VUndefined /\
  rules.isNumberRule h v opt = Ok VUndefined /\
  rules.isArrayRule h v opt = Ok VUndefined /\
  rules.isDateRule h v opt = Ok VUndefined.
Proof.
  intros [-> | ->]; repeat split; reflexivity.
Qed.

(** The two length rules read [val.length] as soon as their bound is set. *)
Lemma length_rules_throw (h : heap) (v : value) (opt : options) :
  null_or_undefined v ->
  (ToBoolean (opt_get opt "maxLength") = true ->
   rules.maxLengthRule h v opt = Throw TypeError) /\
  (ToBoolean (opt_get opt "minLength") = true ->
   rules.minLengthRule h v opt = Throw TypeError).
Proof.
  intros [-> | ->]; split; intros Hb;
    unfold rules.maxLengthRule, rules.minLengthRule; rewrite Hb; reflexivity.
Qed.

(** C5, where the code departs from it: with a bound set,
    [maxLengthRule] and [minLengthRule] throw a [TypeError] on [null] and on
    [undefined] instead of returning no error. *)
Theorem length_rules_fail_on_null (h : heap) :
  rules.maxLengthRule h VNull [("maxLength", VNum 20)] = Throw TypeError /\
  rules.maxLengthRule h VUndefined [("maxLength", VNum 20)] = Throw TypeError /\
  rules.minLengthRule h VNull [("minLength", VNum 1)] = Throw TypeError /\
  rules.minLengthRule h VUndefined [("minLength", VNum 1)] = Throw TypeError.
Proof.
  repeat split; reflexivity.
Qed.

(** C7, where the code departs from it: a string field with
    [allowNull: true] and [maxLength: 20] does not validate [null] to an
    empty list; [Field.validate] throws, and [Model.validate] reports the
    exception as an error of the field. *)
Theorem allowNull_field_rejects_null :
  let name := Field.new stringFieldType "name"
                (Some [("allowNull", VBool true); ("maxLength", VNum 20)]) in
  let h : heap := {[ 1%positive := OPlain [("name", VNull)] ]} in
  (forall h', Field.validate name h' VNull = Throw TypeError) /\
  fst (Model.validate nullableNameModel (VRef 1%positive) "Person" h)
    = Ok {| entity := VNull;
            errors := [ {| field := "name"; message_of := Caught TypeError |} ] |}.
Proof.
  intros name h. split; [intros h'|]; reflexivity.
Qed.

End Rules.


(** ** The type name and the root value *)

Section TypeNames.
Context `{Host}.

(** The guard at the head of [Model.validate] looks up the key ["false"]
    (["true"] for the empty type name), not [typeName]. *)
Lemma type_guard_key (self : Model.t) (typeName : string) :
  js_in (if negb (ToBoolean (VStr typeName)) then "true" else "false")
        (Model.types self)
  = has_own (if String.eqb typeName "" then "true" else "false") (Model.types self).
Proof.
  simpl. rewrite negb_involutive. unfold js_in.
  destruct (String.eqb typeName ""); apply orb_false_r.
Qed.

(** Past the guard, a type name that is neither declared nor a member of
    [Object.prototype] makes [getFieldSummary] read [undefined.fields]. *)
Lemma validate_undeclared_throws_TypeError (self : Model.t) (data : value)
    (typeName : string) (h : heap) :
  has_own (if String.eqb typeName "" then "true" else "false") (Model.types self) = false ->
  js_get typeName (Model.types self) = Absent ->
  String.eqb (typeof h data) "object" = true ->
  Model.validate self data typeName h = (Throw TypeError, h).
Proof.
  intros Hguard Hget Hobj. unfold Model.validate.
  rewrite type_guard_key, Hguard, Hget.
  destruct data; try discriminate Hobj; unfold bind; rewrite ?Hobj; reflexivity.
Qed.

(** C4, where the code departs from it.  On the model of the tests,
    where no type ["Nope"] is declared: an object validated against
    ["Nope"] raises a [TypeError], not the [ModelMeError] of the guard; a
    number raises the error about the [data] parameter; and against
    ["toString"], which is not declared either, the call returns an empty
    entity and no error. *)
Theorem validate_undeclared_type_name :
  let h : heap := {[ 1%positive := OPlain [] ]} in
  has_own "Nope" (Model.types simplePersonModel) = false /\
  has_own "toString" (Model.types simplePersonModel) = false /\
  Model.validate simplePersonModel (VRef 1%positive) "Nope" h = (Throw TypeError, h) /\
  Model.validate simplePersonModel (VNum 5) "Nope" h
    = (Throw (ModelMeError
        "Value passed to data param of validate() function must be an object or a json string"), h) /\
  Model.validate simplePersonModel (VRef 1%positive) "toString" h
    = (Ok {| entity := VRef 2%positive; errors := [] |},
       <[2%positive := OPlain []]> h).
Proof.
  intros h. repeat split; reflexivity.
Qed.

(** [null] goes through the test on [typeof data] and is enumerated like an
    object without properties. *)
Lemma validate_null_as_empty_object (self : Model.t) (typeName : string)
    (h : heap) (l : loc) :
  h !! l = Some (OPlain []) ->
  Model.validate self VNull typeName h = Model.validate self (VRef l) typeName h.
Proof.
  intros Hl. unfold Model.validate.
  destruct (js_in _ _); [reflexivity|].
  unfold bind. simpl. rewrite Hl. simpl.
  unfold Model.getFieldSummary, enumerate. rewrite Hl. reflexivity.
Qed.

(** C9, where the code departs from it: with a type named ["false"]
    in the model, [validate(null, "Person")] on the declared type
    ["Person"] throws the error of the guard and no field is looked at. *)
Theorem validate_null_rejected_by_guard (h : heap) :
  has_own "Person" (Model.types falseTypeModel) = true /\
  Model.validate falseTypeModel VNull "Person" h
    = (Throw (ModelMeError "The type 'Person' does not exist"), h).
Proof.
  split; reflexivity.
Qed.

(** C1, where the code departs from it.  The first friend alone
    fails validation on [name], yet the person validates without any
    error: the entity's [friends] is a new array holding the two friend
    objects of the input as they are, and [entity.friends[1].created] is
    still a string. *)
Theorem complex_elements_are_not_validated :
  let h' : heap :=
    <[11%positive := OArray [VRef 4%positive; VRef 5%positive]]>
      (<[10%positive := OPlain [("name", VStr "Graeme"); ("created", VRef 2%positive);
                                ("friends", VRef 11%positive)]]> family) in
  let friends := read_prop h' (VRef 10%positive) "friends" in
  fst (Model.validate recursivePersonModel (VRef 4%positive) "Person" family)
    = Ok {| entity := VNull;
            errors := [ {| field := "name";
                           message_of := Msg (VStr "must not be null") |} ] |}
  /\ Model.validate recursivePersonModel (VRef 1%positive) "Person" family
     = (Ok {| entity := VRef 10%positive; errors := [] |}, h')
  /\ read_prop h' friends "0" = VRef 4%positive
  /\ read_prop h' friends "1" = VRef 5%positive
  /\ typeof h' (read_prop h' (read_prop h' friends "1") "created") = "string".
Proof.
  intros h' friends. repeat split; vm_compute; reflexivity.
Qed.

End TypeNames.


(** ** Property lists *)

Section Props.
Context {A : Type}.
Implicit Types (k : string) (a : A) (o : props A).

Lemma own_get_None k o : own_get k o = None <-> k ∉ o.*1.
Proof.
  induction o as [|[k' a'] o IH]; csimpl.
  - split; [intros _; apply not_elem_of_nil|reflexivity].
  - rewrite not_elem_of_cons. destruct (String.eqb_spec k k') as [->|Hne].
    + split; [discriminate|intros [[] _]; reflexivity].
    + rewrite IH. tauto.
Qed.

Lemma has_own_false k o : has_own k o = false <-> own_get k o = None.
Proof. unfold has_own. destruct (own_get k o); split; congruence. Qed.

Lemma own_get_replace_own k k' a o :
  own_get k (replace_own k' a o)
  = if String.eqb k k' then match own_get k' o with Some _ => Some a | None => None end
    else own_get k o.
Proof.
  induction o as [|[k1 a1] o IH]; simpl.
  - destruct (String.eqb k k'); reflexivity.
  - destruct (String.eqb_spec k' k1) as [->|Hne1]; simpl.
    + destruct (String.eqb_spec k k1) as [->|Hne]; reflexivity.
    + rewrite IH. destruct (String.eqb_spec k k1) as [->|Hne].
      * destruct (String.eqb_spec k1 k') as [->|_]; [contradiction|reflexivity].
      * reflexivity.
Qed.

Lemma replace_own_keys k a o : (replace_own k a o).*1 = o.*1.
Proof.
  induction o as [|[k1 a1] o IH]; csimpl; [reflexivity|].
  destruct (String.eqb k k1); csimpl; [reflexivity|]. rewrite IH. reflexivity.
Qed.

Lemma own_get_insert_index (i : N) k k' a o :
  own_get k' o = None ->
  own_get k (insert_index i k' a o)
  = if String.eqb k k' then Some a else own_get k o.
Proof.
  induction o as [|[k1 a1] o IH]; simpl; intros Hnew.
  - destruct (String.eqb k k'); reflexivity.
  - destruct (String.eqb_spec k' k1) as [->|Hne1]; [discriminate|].
    destruct (array_index k1) as [j|]; [destruct (j <? i)%N|]; simpl;
      try reflexivity.
    rewrite (IH Hnew). destruct (String.eqb_spec k k1) as [->|_]; [|reflexivity].
    destruct (String.eqb_spec k1 k') as [->|_]; [contradiction|reflexivity].
Qed.

Lemma insert_index_perm (i : N) k a o : insert_index i k a o ≡ₚ (k, a) :: o.
Proof.
  induction o as [|[k1 a1] o IH]; simpl; [reflexivity|].
  destruct (array_index k1) as [j|]; [destruct (j <? i)%N|]; try reflexivity.
  rewrite IH. apply Permutation_swap.
Qed.

Lemma own_get_app_new k k' a o :
  own_get k' o = None ->
  own_get k (o ++ [(k', a)]) = if String.eqb k k' then Some a else own_get k o.
Proof.
  induction o as [|[k1 a1] o IH]; simpl; intros Hnew.
  - destruct (String.eqb k k'); reflexivity.
  - destruct (String.eqb_spec k' k1) as [->|Hne1]; [discriminate|].
    rewrite (IH Hnew). destruct (String.eqb_spec k k1) as [->|_]; [|reflexivity].
    destruct (String.eqb_spec k1 k') as [->|_]; [contradiction|reflexivity].
Qed.

(** Reading after [o[k'] = a]. *)
Lemma own_get_own_set k k' a o :
  own_get k (own_set k' a o) = if String.eqb k k' then Some a else own_get k o.
Proof.
  unfold own_set. destruct (has_own k' o) eqn:Hown.
  - rewrite own_get_replace_own. unfold has_own in Hown.
    destruct (own_get k' o); [reflexivity|discriminate].
  - apply has_own_false in Hown.
    destruct (array_index k'); [apply own_get_insert_index|apply own_get_app_new];
      exact Hown.
Qed.

(** An assignment keeps the property names distinct. *)
Lemma own_set_NoDup k a o : NoDup o.*1 -> NoDup (own_set k a o).*1.
Proof.
  intros Hnd. unfold own_set. destruct (has_own k o) eqn:Hown.
  - rewrite replace_own_keys. exact Hnd.
  - apply has_own_false, own_get_None in Hown.
    assert (NoDup ((k, a) :: o).*1) as Hnew by (csimpl; apply NoDup_cons; auto).
    destruct (array_index k).
    + rewrite insert_index_perm. exact Hnew.
    + rewrite <- Permutation_cons_append. exact Hnew.
Qed.

End Props.


(** ** What validation does to the heap *)

Lemma keeps_others_refl (lr : loc) (h : heap) : keeps_others lr h h.
Proof. intros l o _ Hl. exact Hl. Qed.

Lemma keeps_others_trans (lr : loc) (h1 h2 h3 : heap) :
  keeps_others lr h1 h2 -> keeps_others lr h2 h3 -> keeps_others lr h1 h3.
Proof. intros H12 H23 l o Hne Hl. apply H23, H12; assumption. Qed.

Lemma subseteq_keeps_others (lr : loc) (h h' : heap) :
  h ⊆ h' -> keeps_others lr h h'.
Proof. intros Hsub l o _ Hl. exact (lookup_weaken _ _ _ _ Hl Hsub). Qed.

Lemma insert_keeps_others (lr : loc) (o : obj) (h : heap) :
  keeps_others lr h (<[lr := o]> h).
Proof. intros l o' Hne Hl. rewrite lookup_insert_ne by congruence. exact Hl. Qed.

Lemma keeps_others_subseteq (lr : loc) (h0 h h' : heap) :
  h0 !! lr = None -> h0 ⊆ h -> keeps_others lr h h' -> h0 ⊆ h'.
Proof.
  intros Hfresh Hsub Hkeep. apply map_subseteq_spec. intros l o Hl.
  apply Hkeep; [intros ->; congruence|].
  exact (lookup_weaken _ _ _ _ Hl Hsub).
Qed.

Lemma forEach_push (l : loc) (es acc : list value) (h : heap) :
  h !! l = Some (OArray acc) ->
  forEach es (push (VRef l)) h = (Ok tt, <[l := OArray (acc ++ es)]> h).
Proof.
  revert acc h. induction es as [|el es IH]; intros acc h Hl; simpl.
  - rewrite app_nil_r, insert_id by exact Hl. reflexivity.
  - unfold bind. simpl. rewrite Hl.
    rewrite (IH (acc ++ [el])) by apply lookup_insert_eq.
    rewrite insert_insert_eq, <- app_assoc. reflexivity.
Qed.

Section Heap.
Context `{Host}.

(** The array coercion builds a new array with the elements of the old. *)
Lemma array_coerce_copies (la : loc) (es : list value) (opt : value) (h : heap) :
  h !! la = Some (OArray es) ->
  exists c, FieldType.coerce arrayFieldType = Some c /\
    c (VRef la) opt h
    = (Ok (VRef (fresh (dom h))), <[fresh (dom h) := OArray es]> h).
Proof.
  intros Hla. eexists. split; [reflexivity|]. simpl.
  rewrite Hla. simpl. unfold bind, alloc. simpl.
  rewrite (forEach_push _ _ []) by apply lookup_insert_eq.
  unfold ret. simpl. rewrite insert_insert_eq. reflexivity.
Qed.

Lemma built_in_only_allocates (ft : FieldType.t) :
  built_in ft -> only_allocates ft.
Proof.
  intros Hft c Hc v o h r h' Hrun.
  destruct Hft as [-> | [-> | [-> | [-> | ->]]]]; injection Hc as <-.
  - destruct (_ || _) in Hrun; injection Hrun as _ <-; reflexivity.
  - injection Hrun as _ <-. reflexivity.
  - injection Hrun as _ <-. reflexivity.
  - simpl in Hrun.
    destruct (is_null v); simpl in Hrun; [injection Hrun as _ <-; reflexivity|].
    destruct (String.eqb (typeof h v) "string");
      [|injection Hrun as _ <-; reflexivity].
    destruct v; try (injection Hrun as _ <-; reflexivity).
    destruct (PrimFloat.is_nan _); [injection Hrun as _ <-; reflexivity|].
    exact (alloc_extends _ _ _ _ Hrun).
  - destruct (_ || _) eqn:Hskip in Hrun; [injection Hrun as _ <-; reflexivity|].
    apply orb_false_elim in Hskip as [_ Harr]. apply negb_false_iff in Harr.
    destruct v as [| | | | |la]; try discriminate Harr. simpl in Harr.
    destruct (h !! la) as [[ps|es|t|n rv]|] eqn:Hla; try discriminate Harr.
    unfold bind, alloc in Hrun. simpl in Hrun.
    rewrite (forEach_push _ _ []) in Hrun by apply lookup_insert_eq.
    unfold ret in Hrun. injection Hrun as _ <-.
    rewrite insert_insert_eq.
    apply insert_subseteq, not_elem_of_dom, is_fresh.
Qed.

End Heap.

Lemma Field_coerce_extends (f : Field.t) (v : value) (h h' : heap) (r : result value) :
  only_allocates (Field.fieldType f) -> Field.coerce f v h = (r, h') -> h ⊆ h'.
Proof.
  intros Hft. unfold Field.coerce.
  destruct (FieldType.coerce (Field.fieldType f)) as [c|] eqn:Hc.
  - apply (Hft c Hc).
  - intros [= _ <-]. reflexivity.
Qed.

Lemma validate_field_round (lr : loc) (k : string) (fi : fieldInfo)
    (errs : list FieldError) (h : heap) (ps : props value) :
  (forall f, fi_field fi = Some f -> only_allocates (Field.fieldType f)) ->
  h !! lr = Some (OPlain ps) ->
  exists new h' ps',
    Model.validate_field (VRef lr) k fi errs h = (Ok (errs ++ new), h')
    /\ keeps_others lr h h'
    /\ h' !! lr = Some (OPlain ps')
    /\ (new = [] -> round_stored lr k fi h h' ps ps').
Proof.
  intros Hft Hlr. unfold Model.validate_field, round_stored.
  destruct (fi_field fi) as [f|].
  2:{ exists [], h, ps. rewrite app_nil_r.
      repeat split; auto using keeps_others_refl. }
  specialize (Hft f eq_refl).
  unfold try_catch, bind.
  destruct (Field.coerce f (fi_value fi) h) as [[c|ex] h1] eqn:Hco;
    pose proof (Field_coerce_extends _ _ _ _ _ Hft Hco) as Hsub.
  2:{ eexists [_], h1, ps. repeat split.
      - apply subseteq_keeps_others, Hsub.
      - exact (lookup_weaken _ _ _ _ Hlr Hsub).
      - discriminate. }
  unfold lift_read.
  destruct (Field.validate f h1 c) as [fieldErrors|ex].
  2:{ eexists [_], h1, ps. repeat split.
      - apply subseteq_keeps_others, Hsub.
      - exact (lookup_weaken _ _ _ _ Hlr Hsub).
      - discriminate. }
  unfold set_prop. rewrite (lookup_weaken _ _ _ _ Hlr Hsub). unfold ret.
  eexists _, _, _. split; [reflexivity|]. split; [|split].
  - eapply keeps_others_trans;
      [apply subseteq_keeps_others, Hsub|apply insert_keeps_others].
  - apply lookup_insert_eq.
  - intros _. exists c, h1. auto.
Qed.



(** ** The field summary *)

Section Summary.

Lemma own_get_Some_elem {A} (k : string) (a : A) (o : props A) :
  NoDup o.*1 -> own_get k o = Some a <-> (k, a) ∈ o.
Proof.
  induction o as [|[k1 a1] o IH]; csimpl; intros Hnd.
  - split; [discriminate|]. intros Hin. apply elem_of_nil in Hin. contradiction.
  - apply NoDup_cons in Hnd as [Hk1 Hnd]. rewrite elem_of_cons.
    destruct (String.eqb_spec k k1) as [->|Hne].
    + split; [intros [= ->]; left; reflexivity|].
      intros [[= ->]|Hin]; [reflexivity|].
      exfalso. apply Hk1. apply list_elem_of_fmap. exists (k1, a). auto.
    + rewrite (IH Hnd). split; [auto|]. intros [[= -> ->]|Hin]; [contradiction|exact Hin].
Qed.

Lemma elem_of_replace_own {A} (x : string * A) (k : string) (a : A) (o : props A) :
  x ∈ replace_own k a o -> x = (k, a) \/ x ∈ o.
Proof.
  induction o as [|[k1 a1] o IH]; simpl; [auto|].
  destruct (String.eqb_spec k k1) as [->|Hne]; rewrite !elem_of_cons.
  - intros [->|Hin]; auto.
  - intros [->|Hin]; [auto|]. destruct (IH Hin); auto.
Qed.

Lemma elem_of_own_set {A} (x : string * A) (k : string) (a : A) (o : props A) :
  x ∈ own_set k a o -> x = (k, a) \/ x ∈ o.
Proof.
  unfold own_set. destruct (has_own k o); [apply elem_of_replace_own|].
  destruct (array_index k).
  - rewrite insert_index_perm. apply elem_of_cons.
  - rewrite elem_of_app, list_elem_of_singleton. tauto.
Qed.

Lemma add_value_NoDup (acc : props fieldInfo) (entry : string * value) :
  NoDup acc.*1 -> NoDup (Model.add_value acc entry).*1.
Proof. destruct entry. apply own_set_NoDup. Qed.

Lemma add_field_NoDup (acc : props fieldInfo) (entry : string * Field.t) :
  NoDup acc.*1 -> NoDup (Model.add_field acc entry).*1.
Proof.
  destruct entry as [k f]. intros Hnd. unfold Model.add_field.
  destruct (js_in k acc); [|apply own_set_NoDup, Hnd].
  destruct (own_get k acc); [|exact Hnd].
  rewrite replace_own_keys. exact Hnd.
Qed.

Lemma fold_left_NoDup {B} (step : props fieldInfo -> B -> props fieldInfo)
    (l : list B) (acc : props fieldInfo) :
  (forall acc b, NoDup acc.*1 -> NoDup (step acc b).*1) ->
  NoDup acc.*1 -> NoDup (fold_left step l acc).*1.
Proof.
  intros Hstep. revert acc. induction l as [|b l IH]; simpl; auto.
Qed.

(** The names of the summary are distinct, and building it leaves the heap
    alone. *)
Lemma getFieldSummary_NoDup (obj : value) (type : lookup_result Type'.t)
    (h h' : heap) (summary : props fieldInfo) :
  Model.getFieldSummary obj type h = (Ok summary, h') ->
  NoDup summary.*1 /\ h' = h.
Proof.
  unfold Model.getFieldSummary.
  assert (NoDup (fold_left Model.add_value (enumerate h obj) []).*1) as Hvalues
    by (apply fold_left_NoDup; [apply add_value_NoDup|apply NoDup_nil_2]).
  destruct type as [ty| |]; intros [= <- <-]; split; auto.
  apply fold_left_NoDup; [apply add_field_NoDup|exact Hvalues].
Qed.

Lemma add_values_no_field (l : list (string * value)) :
  forall (acc : props fieldInfo),
  (forall x, x ∈ acc -> fi_field x.2 = None) ->
  forall x, x ∈ fold_left Model.add_value l acc -> fi_field x.2 = None.
Proof.
  induction l as [|[k v] l IH]; simpl; intros acc Hacc; [exact Hacc|].
  apply IH. intros x Hin. apply elem_of_own_set in Hin as [->|Hin]; auto.
Qed.

Lemma add_fields_sources (F fs : list (string * Field.t)) :
  forall (acc : props fieldInfo),
  (forall x f, x ∈ acc -> fi_field x.2 = Some f -> (x.1, f) ∈ F) ->
  (forall kf, kf ∈ fs -> kf ∈ F) ->
  forall x f, x ∈ fold_left Model.add_field fs acc -> fi_field x.2 = Some f -> (x.1, f) ∈ F.
Proof.
  induction fs as [|[k1 f1] fs IH]; simpl; intros acc Hacc HF; [exact Hacc|].
  apply IH; [|intros kf Hkf; apply HF, list_elem_of_further, Hkf].
  assert ((k1, f1) ∈ F) as H1 by apply HF, list_elem_of_here.
  intros x f Hin Hf.
  destruct (js_in k1 acc).
  - destruct (own_get k1 acc) as [fi|]; [|eauto].
    apply elem_of_replace_own in Hin as [->|Hin]; [|eauto].
    simpl in *. congruence.
  - apply elem_of_own_set in Hin as [->|Hin]; [|eauto].
    simpl in *. congruence.
Qed.

(** A field of the summary is a field of the type, under the same name. *)
Lemma getFieldSummary_fields (obj : value) (type : lookup_result Type'.t)
    (h h' : heap) (summary : props fieldInfo) (k : string) (fi : fieldInfo)
    (f : Field.t) :
  Model.getFieldSummary obj type h = (Ok summary, h') ->
  (k, fi) ∈ summary -> fi_field fi = Some f ->
  exists ty, type = Own ty /\ (k, f) ∈ Type'.fields ty.
Proof.
  unfold Model.getFieldSummary.
  assert (forall x, x ∈ fold_left Model.add_value (enumerate h obj) [] ->
                    fi_field x.2 = None) as Hvalues.
  { apply add_values_no_field. intros y Hy. apply elem_of_nil in Hy. contradiction. }
  destruct type as [ty| |]; intros [= <- <-] Hin Hf.
  - exists ty. split; [reflexivity|].
    apply (add_fields_sources (Type'.fields ty) (Type'.fields ty)
             (fold_left Model.add_value (enumerate h obj) [])) with (x := (k, fi)); auto.
    intros x f' Hx Hf'. pose proof (Hvalues x Hx) as Hnone. congruence.
  - pose proof (Hvalues (k, fi) Hin) as Hnone. simpl in Hnone. congruence.
Qed.

Lemma own_get_add_values (k : string) (l : list (string * value)) :
  NoDup l.*1 ->
  forall acc : props fieldInfo,
  own_get k (fold_left Model.add_value l acc)
  = match own_get k l with
    | Some v => Some {| fi_value := v; fi_field := None |}
    | None => own_get k acc
    end.
Proof.
  induction l as [|[k1 v1] l IH]; csimpl; intros Hnd acc; [reflexivity|].
  apply NoDup_cons in Hnd as [Hk1 Hnd]. rewrite (IH Hnd), own_get_own_set.
  destruct (String.eqb_spec k k1) as [->|Hne]; [|reflexivity].
  apply own_get_None in Hk1. rewrite Hk1. reflexivity.
Qed.

Lemma own_get_add_fields (k : string) (fs : list (string * Field.t)) :
  NoDup fs.*1 ->
  forall acc : props fieldInfo,
  own_get k (fold_left Model.add_field fs acc)
  = match own_get k fs with
    | Some f =>
        match own_get k acc with
        | Some fi => Some {| fi_value := fi_value fi; fi_field := Some f |}
        | None => if inherited k then None
                  else Some {| fi_value := VUndefined; fi_field := Some f |}
        end
    | None => own_get k acc
    end.
Proof.
  induction fs as [|[k1 f1] fs IH]; intros Hnd acc; [reflexivity|].
  rewrite fmap_cons in Hnd. apply NoDup_cons in Hnd as [Hk1 Hnd].
  change (fold_left Model.add_field ((k1, f1) :: fs) acc)
    with (fold_left Model.add_field fs (Model.add_field acc (k1, f1))).
  rewrite (IH Hnd). cbn [own_get].
  cbn [fst] in Hk1. apply own_get_None in Hk1.
  assert (forall k', k' <> k1 ->
            own_get k' (Model.add_field acc (k1, f1)) = own_get k' acc) as Hother.
  { intros k' Hne. unfold Model.add_field. destruct (js_in k1 acc).
    - destruct (own_get k1 acc); [|reflexivity].
      rewrite own_get_replace_own.
      destruct (String.eqb_spec k' k1); [contradiction|reflexivity].
    - rewrite own_get_own_set.
      destruct (String.eqb_spec k' k1); [contradiction|reflexivity]. }
  destruct (String.eqb_spec k k1) as [->|Hne].
  - rewrite Hk1. unfold Model.add_field, js_in, has_own.
    destruct (own_get k1 acc) as [fi|] eqn:Hacc; simpl.
    + rewrite own_get_replace_own, String.eqb_refl, Hacc. reflexivity.
    + destruct (inherited k1); [exact Hacc|].
      rewrite own_get_own_set, String.eqb_refl. reflexivity.
  - rewrite (Hother k Hne). reflexivity.
Qed.

End Summary.


(** ** The entity and the input *)

Section Entity.
Context `{Host}.

(** The steps of a call of [Model.validate] that returns. *)
Lemma validate_Ok_inv (self : Model.t) (data : value) (typeName : string)
    (h h' : heap) (r : ValidationResult) :
  Model.validate self data typeName h = (Ok r, h') ->
  exists obj h1 summary le errs,
    h ⊆ h1
    /\ (forall lo, data = VRef lo -> obj = data /\ h1 = h)
    /\ Model.getFieldSummary obj (js_get typeName (Model.types self)) h1
       = (Ok summary, h1)
    /\ h1 !! le = None
    /\ Model.validate_fields (VRef le) summary [] (<[le := OPlain []]> h1)
       = (Ok errs, h')
    /\ r = {| entity := if (0 <? length errs)%nat then VNull else VRef le;
              errors := errs |}.
Proof.
  unfold Model.validate. destruct (js_in _ _); [discriminate|].
  intros (obj & h1 & Hparse & Hrest)%bind_Ok_inv.
  apply bind_Ok_inv in Hrest as (summary & h2 & Hsum & Hrest).
  apply bind_Ok_inv in Hrest as (result & h3 & Halloc & Hrest).
  apply bind_Ok_inv in Hrest as (errs & h4 & Hrun & Hret).
  apply alloc_Ok_inv in Halloc as (le & -> & Hfresh & ->).
  destruct (getFieldSummary_NoDup _ _ _ _ _ Hsum) as [_ ->].
  injection Hret as <- <-.
  exists obj, h1, summary, le, errs. repeat split; auto.
  - destruct data as [| |b|n|text|lo];
      try (destruct (negb _) in Hparse; injection Hparse as _ <-; reflexivity).
    exact (JSON_parse_extends _ _ _ _ Hparse).
  - subst data. destruct (negb _) in Hparse; [discriminate|].
    injection Hparse as <- _. reflexivity.
  - subst data. destruct (negb _) in Hparse; [discriminate|].
    injection Hparse as _ <-. reflexivity.
Qed.



(** The fields of the type of an [object_run]. *)
Lemma object_run_fields (self : Model.t) (typeName : string) (ty : Type'.t)
    (lo : loc) (ips : props value) (h h' : heap) (r : ValidationResult) :
  object_run self typeName ty lo ips h r h' ->
  js_get typeName (Model.types self) = Own ty
  /\ forall k f, (k, f) ∈ Type'.fields ty ->
       inherited k = false /\ only_allocates (Field.fieldType f).
Proof.
  intros (Hty & _ & _ & _ & (_ & _ & _ & Hbuilt) & _).
  assert (js_get typeName (Model.types self) = Own ty) as Hget
    by (unfold js_get; rewrite Hty; reflexivity).
  split; [exact Hget|]. intros k f Hin.
  destruct (Hbuilt ty Hget k f Hin) as [Hname Hft].
  split; [exact Hname|apply built_in_only_allocates, Hft].
Qed.



End Entity.

Section DatedPerson.
Context `{Host}.

(** The declarations, as the calls above leave them. *)
Lemma datedPersonModel_types :
  Model.types datedPersonModel
  = [("Person",
      {| Type'.name := "Person";
         Type'.fields :=
           [("name", Field.new stringFieldType "name" None);
            ("created", Field.new datetimeFieldType "created" None);
            ("friends", Field.new arrayFieldType "friends"
                          (Some [("defaultValue", VRef 8%positive)]))] |})].
Proof. reflexivity. Defined.

Lemma datedPerson_built_in : built_in_fields datedPerson.
Proof.
  intros k f Hin.
  cbn [Type'.fields datedPerson] in Hin. rewrite !elem_of_cons in Hin.
  destruct Hin as [[= -> ->]|[[= -> ->]|[[= -> ->]|Hin]]].
  - split; [reflexivity|]. left. reflexivity.
  - split; [reflexivity|]. right. right. right. left. reflexivity.
  - split; [reflexivity|]. right. right. right. right. reflexivity.
  - apply elem_of_nil in Hin. contradiction.
Defined.

(** A call of [datedPersonModel] on a value that is not JSON text. *)
Lemma datedPerson_call (data : value) (h : heap) :
  (forall s, data <> VStr s) ->
  has_own "__proto__" (enumerate h data) = false -> no_methods h ->
  plain_call datedPersonModel data "Person" h.
Proof.
  intros Hdata Hproto Hheap.
  split; [exact Hdata|]. split; [exact Hproto|]. split; [exact Hheap|].
  rewrite datedPersonModel_types. cbn. intros ty [= <-].
  exact datedPerson_built_in.
Defined.

(** A returning call of [datedPersonModel] on a plain object is an
    [object_run]. *)
Lemma datedPerson_run (lo : loc) (ips : props value) (h h' : heap)
    (r : ValidationResult) :
  h !! lo = Some (OPlain ips) -> NoDup ips.*1 ->
  has_own "__proto__" ips = false -> no_methods h ->
  Model.validate datedPersonModel (VRef lo) "Person" h = (Ok r, h') ->
  object_run datedPersonModel "Person" datedPerson lo ips h r h'.
Proof.
  intros Hlo Hips Hproto Hheap Hrun.
  split; [reflexivity|].
  split; [apply (bool_decide_unpack _); vm_compute; exact I|].
  split; [exact Hlo|]. split; [exact Hips|].
  split; [|exact Hrun].
  apply datedPerson_call; [discriminate| |exact Hheap].
  unfold enumerate. rewrite Hlo. exact Hproto.
Defined.

End DatedPerson.




(** ** What holds beside the failures above *)

Section Remainder.
Context `{Host}.

(** [null] against a field of a built-in type without length bounds: the
    null rule alone speaks, and [allowNull] silences it. *)
Lemma validate_null_built_in (f : Field.t) (h : heap) :
  built_in (Field.fieldType f) ->
  ToBoolean (opt_get (Field.typeOptions f) "maxLength") = false ->
  ToBoolean (opt_get (Field.typeOptions f) "minLength") = false ->
  Field.validate f h VNull
  = Ok (if ToBoolean (opt_get (Field.typeOptions f) "allowNull") then []
        else [VStr "must not be null"]).
Proof.
  intros Hft Hmax Hmin. unfold Field.validate.
  destruct Hft as [-> | [-> | [-> | [-> | ->]]]]; simpl;
    unfold rules.maxLengthRule, rules.minLengthRule, rules.nullRule,
      rules.undefinedRule;
    rewrite ?Hmax, ?Hmin; simpl; rewrite ?andb_false_r;
    destruct (ToBoolean (opt_get (Field.typeOptions f) "allowNull")); reflexivity.
Qed.

(** The loop over the field summary never throws. *)
Lemma validate_fields_total (result : value) (summary : props fieldInfo) :
  forall (errs : list FieldError) (h : heap),
  exists errs' h', Model.validate_fields result summary errs h = (Ok errs', h').
Proof.
  induction summary as [|[k fi] summary IH]; intros errs h; simpl.
  - eexists _, _. reflexivity.
  - unfold bind.
    assert (exists errs1 h1,
              Model.validate_field result k fi errs h = (Ok errs1, h1)) as
      (errs1 & h1 & ->).
    { unfold Model.validate_field. destruct (fi_field fi) as [f|];
        [|eexists _, _; reflexivity].
      unfold try_catch, bind, lift_read.
      destruct (Field.coerce f (fi_value fi) h) as [[c|ex] h1];
        [|eexists _, _; reflexivity].
      destruct (Field.validate f h1 c); [|eexists _, _; reflexivity].
      unfold set_prop, ret.
      destruct result as [| | | | |l]; try (eexists _, _; reflexivity).
      destruct (h1 !! l) as [[]|]; eexists _, _; reflexivity. }
    apply IH.
Qed.

(** Past the guard, [null] against a declared type returns, and the
    summary pairs every declared field with [undefined]. *)
Lemma validate_null_fields (self : Model.t) (typeName : string) (ty : Type'.t)
    (h : heap) :
  has_own (if String.eqb typeName "" then "true" else "false") (Model.types self) = false ->
  own_get typeName (Model.types self) = Some ty ->
  (exists r h', Model.validate self VNull typeName h = (Ok r, h'))
  /\ Model.getFieldSummary VNull (Own ty) h
     = (Ok (fold_left Model.add_field (Type'.fields ty) []), h)
  /\ (NoDup (Type'.fields ty).*1 ->
      forall k f, own_get k (Type'.fields ty) = Some f -> inherited k = false ->
        own_get k (fold_left Model.add_field (Type'.fields ty) [])
        = Some {| fi_value := VUndefined; fi_field := Some f |}).
Proof.
  intros Hguard Hty. split; [|split].
  - unfold Model.validate. rewrite type_guard_key, Hguard.
    unfold js_get. rewrite Hty. unfold bind. simpl.
    destruct (validate_fields_total (VRef (fresh (dom h)))
                (fold_left Model.add_field (Type'.fields ty) []) []
                (<[fresh (dom h) := OPlain []]> h)) as (errs & h' & ->).
    eexists _, _. reflexivity.
  - reflexivity.
  - intros Hnd k f Hf Hk. rewrite (own_get_add_fields k _ Hnd), Hf, Hk. reflexivity.
Qed.

(** No call on [null] ends with the error about the [data] parameter. *)
Lemma validate_null_no_input_error (self : Model.t) (typeName : string) (h : heap) :
  fst (Model.validate self VNull typeName h)
  <> Throw (ModelMeError
       "Value passed to data param of validate() function must be an object or a json string").
Proof.
  unfold Model.validate. destruct (js_in _ _); [simpl; discriminate|].
  unfold bind. simpl. unfold Model.getFieldSummary. simpl.
  destruct (js_get typeName (Model.types self)) as [ty| |]; simpl; try congruence.
  destruct (validate_fields_total (VRef (fresh (dom h)))
              (fold_left Model.add_field (Type'.fields ty) []) []
              (<[fresh (dom h) := OPlain []]> h)) as (errs & h' & ->).
  simpl. congruence.
Qed.

End Remainder.


(** ** Building a model *)

Section Registry.
Context {A : Type}.
Implicit Types (k : string) (a : A) (o : props A).

Lemma js_get_own_set k k' a o :
  js_get k (own_set k' a o) = if String.eqb k k' then Own a else js_get k o.
Proof.
  unfold js_get. rewrite own_get_own_set.
  destruct (String.eqb k k'); reflexivity.
Qed.

Lemma js_get_replace_own k k' a o :
  has_own k' o = true ->
  js_get k (replace_own k' a o) = if String.eqb k k' then Own a else js_get k o.
Proof.
  intros Hown. unfold js_get. rewrite own_get_replace_own.
  unfold has_own in Hown.
  destruct (String.eqb k k'); [|reflexivity].
  destruct (own_get k' o); [reflexivity|discriminate].
Qed.

Lemma js_in_js_get k o : js_in k o = false <-> js_get k o = Absent.
Proof.
  unfold js_in, js_get, has_own.
  destruct (own_get k o); simpl; [split; discriminate|].
  destruct (inherited k); split; congruence.
Qed.

End Registry.

(** X1. [addFieldType] either registers the field type, after which
    [getFieldType] finds it under its name and every other name reads as
    before, or throws because the name is taken: by a registered field
    type or by a member of [Object.prototype]. *)
Theorem addFieldType_outcome (fieldType : FieldType.t) (self : Model.t) :
  match Model.addFieldType fieldType self with
  | Ok self' =>
      js_in (FieldType.name fieldType) (Model.fieldTypes self) = false
      /\ Model.getFieldType (FieldType.name fieldType) self' = Own fieldType
      /\ (forall n, n <> FieldType.name fieldType ->
            Model.getFieldType n self' = Model.getFieldType n self)
      /\ Model.types self' = Model.types self
  | Throw e =>
      js_in (FieldType.name fieldType) (Model.fieldTypes self) = true
      /\ e = ModelMeError ("The field type '" +:+ FieldType.name fieldType
                           +:+ "' already exists")
  end.
Proof.
  unfold Model.addFieldType.
  destruct (js_in (FieldType.name fieldType) (Model.fieldTypes self)) eqn:Hin.
  - split; reflexivity.
  - split; [reflexivity|]. unfold Model.getFieldType. simpl.
    split; [|split; [|reflexivity]].
    + rewrite js_get_own_set, String.eqb_refl. reflexivity.
    + intros n Hn. rewrite js_get_own_set.
      destruct (String.eqb_spec n (FieldType.name fieldType)); [contradiction|reflexivity].
Qed.

(** X2. [Model.type] either declares the type, empty of fields, leaving
    the other declarations and the field types as they were, or throws: the
    name is already that of a type or of a member of [Object.prototype]
    (["toString"], ["constructor"], ...), or it is the empty string. *)
Theorem type_outcome (name : string) (self : Model.t) :
  match Model.type name self with
  | Ok self' =>
      js_in name (Model.types self) = false /\ name <> ""
      /\ js_get name (Model.types self')
         = Own {| Type'.name := name; Type'.fields := [] |}
      /\ (forall n, n <> name ->
            js_get n (Model.types self') = js_get n (Model.types self))
      /\ Model.fieldTypes self' = Model.fieldTypes self
  | Throw e =>
      (js_in name (Model.types self) = true
       /\ e = ModelMeError ("A type with name '" +:+ name +:+ "' already exists"))
      \/ (js_in name (Model.types self) = false /\ name = ""
          /\ e = ModelMeError "Type name must not be empty string")
  end.
Proof.
  unfold Model.type.
  destruct (js_in name (Model.types self)) eqn:Hin; [left; split; reflexivity|].
  unfold Type'.new. destruct name as [|c name]; simpl.
  - right. repeat split; reflexivity.
  - split; [reflexivity|]. split; [discriminate|].
    split; [|split; [|reflexivity]].
    + rewrite js_get_own_set, String.eqb_refl. reflexivity.
    + intros n Hn. rewrite js_get_own_set.
      destruct (String.eqb_spec n (String c name)); [contradiction|reflexivity].
Qed.

(** X3. [Type.field] checks the field type first and the field name
    second.  It throws when the model has no such field type, and when the
    field name is taken (by a field of the type or by a member of
    [Object.prototype]); otherwise the type gains the field, built from
    the field type found and the options given, and keeps its name and its
    other fields. *)
Theorem field_outcome (getFieldType : string -> lookup_result FieldType.t)
    (self : Type'.t) (fieldName typeName : string) (typeOptions : option options) :
  match Type'.field getFieldType self fieldName typeName typeOptions with
  | Ok self' =>
      getFieldType typeName <> Absent
      /\ js_in fieldName (Type'.fields self) = false
      /\ Type'.name self' = Type'.name self
      /\ own_get fieldName (Type'.fields self')
         = Some (Field.new (match getFieldType typeName with
                            | Own ft => ft
                            | _ => Type'.inherited_member typeName
                            end) fieldName typeOptions)
      /\ (forall k, k <> fieldName ->
            own_get k (Type'.fields self') = own_get k (Type'.fields self))
  | Throw e =>
      (getFieldType typeName = Absent
       /\ e = ModelMeError ("The type '" +:+ typeName +:+ "' is not valid"))
      \/ (getFieldType typeName <> Absent
          /\ js_in fieldName (Type'.fields self) = true
          /\ e = ModelMeError ("The field '" +:+ fieldName
                               +:+ "' already exists on type '"
                               +:+ Type'.name self +:+ "'"))
  end.
Proof.
  unfold Type'.field.
  assert (forall ft : FieldType.t,
    own_get fieldName
      (own_set fieldName (Field.new ft fieldName typeOptions) (Type'.fields self))
    = Some (Field.new ft fieldName typeOptions)
    /\ (forall k, k <> fieldName ->
          own_get k (own_set fieldName (Field.new ft fieldName typeOptions)
                       (Type'.fields self))
          = own_get k (Type'.fields self))) as Hset.
  { intros ft. split.
    - rewrite own_get_own_set, String.eqb_refl. reflexivity.
    - intros k Hk. rewrite own_get_own_set.
      destruct (String.eqb_spec k fieldName); [contradiction|reflexivity]. }
  destruct (getFieldType typeName) as [ft| |] eqn:Hft.
  - destruct (js_in fieldName (Type'.fields self)) eqn:Hin.
    + right. split; [discriminate|]. split; reflexivity.
    + split; [discriminate|]. split; [reflexivity|]. split; [reflexivity|].
      apply Hset.
  - destruct (js_in fieldName (Type'.fields self)) eqn:Hin.
    + right. split; [discriminate|]. split; reflexivity.
    + split; [discriminate|]. split; [reflexivity|]. split; [reflexivity|].
      apply Hset.
  - left. split; reflexivity.
Qed.

Section FreshModel.
Context `{Host}.

(** X4. A new model has no type and exactly four field types: ["string"],
    ["int"], ["datetime"] and ["array"].  Any other name, ["number"]
    included, reads as a member of [Object.prototype] or as nothing. *)
Theorem new_model_registry :
  exists self,
    Model.new = Ok self
    /\ Model.types self = []
    /\ Model.getFieldType "string" self = Own stringFieldType
    /\ Model.getFieldType "int" self = Own intFieldType
    /\ Model.getFieldType "datetime" self = Own datetimeFieldType
    /\ Model.getFieldType "array" self = Own arrayFieldType
    /\ Model.getFieldType "number" self = Absent
    /\ (forall n ft, Model.getFieldType n self = Own ft ->
          n = "string" \/ n = "int" \/ n = "datetime" \/ n = "array").
Proof.
  exists {| Model.fieldTypes :=
              [("string", stringFieldType); ("int", intFieldType);
               ("datetime", datetimeFieldType); ("array", arrayFieldType)];
            Model.types := [] |}.
  split; [reflexivity|]. repeat (split; [reflexivity|]).
  intros n ft. unfold Model.getFieldType, js_get. cbn [Model.fieldTypes own_get].
  destruct (String.eqb_spec n "string"); [auto|].
  destruct (String.eqb_spec n "int"); [auto|].
  destruct (String.eqb_spec n "datetime"); [auto|].
  destruct (String.eqb_spec n "array"); [auto|].
  destruct (inherited n); discriminate.
Qed.

End FreshModel.


(** ** Rules and coercions of a field *)

Lemma run_rules_results (rs : list rule) (h : heap) (val : value) (opt : options) :
  forall acc,
  Field.run_rules rs h val opt acc
  = (es <-r rule_results rs h val opt ;; Ok (acc ++ List.filter ToBoolean es)).
Proof.
  induction rs as [|r rs IH]; intros acc; simpl.
  - rewrite app_nil_r. reflexivity.
  - destruct (r h val opt) as [e|ex]; simpl; [|reflexivity].
    rewrite IH. destruct (rule_results rs h val opt) as [es|ex]; simpl; [|reflexivity].
    destruct (ToBoolean e); [rewrite <- app_assoc|]; reflexivity.
Qed.

(** X5. [Field.validate] runs every rule of the field type, in order, and
    returns exactly the results that are truthy; it throws what the first
    failing rule throws, and a [TypeError] when the field type has no
    rules. *)
Theorem validate_collects_every_rule (self : Field.t) (h : heap) (val : value) :
  Field.validate self h val
  = match FieldType.rules (Field.fieldType self) with
    | Some rs =>
        es <-r rule_results rs h val (Field.typeOptions self) ;;
        Ok (List.filter ToBoolean es)
    | None => Throw TypeError
    end.
Proof.
  unfold Field.validate. destruct (FieldType.rules (Field.fieldType self)); [|reflexivity].
  apply run_rules_results.
Qed.

(** Once a rule has spoken, its message is in the list, unless a rule
    throws. *)
Lemma run_rules_reports (rs : list rule) (h : heap) (val : value) (opt : options)
    (r : rule) (e : value) :
  In r rs -> r h val opt = Ok e -> ToBoolean e = true ->
  forall acc,
  match Field.run_rules rs h val opt acc with
  | Throw _ => True
  | Ok fieldErrors => e ∈ fieldErrors
  end.
Proof.
  intros Hin Hr He acc. rewrite run_rules_results.
  destruct (rule_results rs h val opt) as [es|ex] eqn:Hes; simpl; [|exact I].
  apply elem_of_app. right. apply list_elem_of_In, filter_In. split; [|exact He].
  revert es Hes. induction rs as [|r1 rs IH]; intros es Hes; [destruct Hin|].
  simpl in Hes. destruct (r1 h val opt) as [e1|] eqn:H1; [|discriminate].
  simpl in Hes. destruct (rule_results rs h val opt) as [es1|]; [|discriminate].
  injection Hes as <-. destruct Hin as [->|Hin].
  - left. congruence.
  - right. apply IH; [exact Hin|reflexivity].
Qed.

Section FieldContracts.
Context `{Host}.

(** X6. The coercion of a field depends on its options through
    [defaultValue] alone, and on that for [undefined] alone: for a defined
    value every option is ignored, the element type of an array field
    included. *)
Theorem coerce_ignores_options (ft : FieldType.t) (name name' : string)
    (opts opts' : options) (val : value) (h : heap) :
  (val <> VUndefined ->
   Field.coerce (Field.mk ft name opts) val h
   = Field.coerce (Field.mk ft name' opts') val h)
  /\ (opt_get opts "defaultValue" = opt_get opts' "defaultValue" ->
      Field.coerce (Field.mk ft name opts) val h
      = Field.coerce (Field.mk ft name' opts') val h).
Proof.
  split.
  - intros Hv. unfold Field.coerce. rewrite !defaultCoerce_defined by exact Hv.
    reflexivity.
  - intros Hd. unfold Field.coerce, Field.defaultCoerce. simpl. rewrite Hd.
    reflexivity.
Qed.

(** X7. What the built-in coercions leave alone.  A field of a built-in
    type returns the value it is given, in the heap it is given, unless
    the value is [undefined] with a default at hand, a string field gets a
    defined value that is not a string, a datetime field gets a string, or
    an array field gets an array. *)
Theorem built_in_coerce_passes (self : Field.t) (h : heap) (val : value) :
  built_in (Field.fieldType self) ->
  (val = VUndefined -> opt_get (Field.typeOptions self) "defaultValue" = VUndefined) ->
  (Field.fieldType self = stringFieldType ->
     null_or_undefined val \/ exists s, val = VStr s) ->
  (Field.fieldType self = datetimeFieldType -> forall s, val <> VStr s) ->
  (Field.fieldType self = arrayFieldType -> isArray h val = false) ->
  Field.coerce self val h = (Ok val, h).
Proof.
  intros Hft Hdef Hstr Hdate Harr.
  assert (Field.defaultCoerce self h val = val) as Hdc.
  { destruct val; try (apply defaultCoerce_defined; discriminate).
    unfold Field.defaultCoerce. rewrite (Hdef eq_refl). reflexivity. }
  unfold Field.coerce. rewrite Hdc.
  destruct Hft as [Hft | [Hft | [Hft | [Hft | Hft]]]]; rewrite Hft.
  - destruct (Hstr Hft) as [[-> | ->] | [s ->]]; reflexivity.
  - reflexivity.
  - reflexivity.
  - specialize (Hdate Hft). simpl.
    destruct val as [| |b|n|s|l]; try reflexivity.
    + exfalso. apply (Hdate s). reflexivity.
    + simpl. destruct (h !! l) as [[]|]; reflexivity.
  - simpl. rewrite (Harr Hft). simpl. rewrite orb_true_r. reflexivity.
Qed.

(** X8. An array field copies an array: the result is a new array, at a
    location unused so far, with the same elements in the same order, and
    the heap is otherwise as it was. *)
Theorem array_coerce_fresh_copy (self : Field.t) (h : heap) (la : loc)
    (es : list value) :
  Field.fieldType self = arrayFieldType ->
  h !! la = Some (OArray es) ->
  exists la',
    Field.coerce self (VRef la) h = (Ok (VRef la'), <[la' := OArray es]> h)
    /\ h !! la' = None /\ la' <> la.
Proof.
  intros Hft Hla. exists (fresh (dom h)).
  assert (h !! fresh (dom h) = None) as Hnew by apply not_elem_of_dom, is_fresh.
  split; [|split; [exact Hnew|intros Heq; rewrite Heq in Hnew; congruence]].
  unfold Field.coerce. rewrite defaultCoerce_defined by discriminate.
  destruct (array_coerce_copies la es VUndefined h Hla) as (c & Hc & Hrun).
  rewrite Hft, Hc. exact Hrun.
Qed.

(** X9. A datetime field given a string asks [Date.parse]: when the answer
    is [NaN] the coercion throws the string naming the input and the heap
    is as it was, so the field rejects the value; otherwise the result is a
    new [Date] of the parsed time. *)
Theorem datetime_coerce_string (self : Field.t) (h : heap) (s : string) :
  Field.fieldType self = datetimeFieldType ->
  (PrimFloat.is_nan (Date_parse s) = true ->
     Field.coerce self (VStr s) h
     = (Throw (Thrown (VStr ("not a valid date string: '" +:+ s +:+ "'"))), h)
     /\ rejects self (VStr s))
  /\ (PrimFloat.is_nan (Date_parse s) = false ->
      exists ld, Field.coerce self (VStr s) h
                 = (Ok (VRef ld), <[ld := ODate (Date_parse s)]> h)
                 /\ h !! ld = None).
Proof.
  intros Hft.
  assert (forall h0, Field.coerce self (VStr s) h0
            = if PrimFloat.is_nan (Date_parse s)
              then (Throw (Thrown (VStr ("not a valid date string: '" +:+ s +:+ "'"))), h0)
              else alloc (ODate (Date_parse s)) h0) as Hco.
  { intros h0. unfold Field.coerce. rewrite defaultCoerce_defined by discriminate.
    rewrite Hft. reflexivity. }
  split; intros Hnan.
  - split; [rewrite Hco, Hnan; reflexivity|].
    intros h0. unfold rejects_in. rewrite Hco, Hnan. exact I.
  - rewrite Hco, Hnan. exists (fresh (dom h)). split; [reflexivity|].
    apply not_elem_of_dom, is_fresh.
Qed.

End FieldContracts.

Section FieldVerdicts.
Context `{Host}.

Lemma built_in_has_rules (ft : FieldType.t) :
  built_in ft ->
  exists rs, FieldType.rules ft = Some rs
             /\ In rules.nullRule rs /\ In rules.undefinedRule rs.
Proof.
  intros [-> | [-> | [-> | [-> | ->]]]]; eexists; (split; [reflexivity|]);
    simpl; auto 6.
Qed.

Lemma built_in_coerce_absent (self : Field.t) (h : heap) (v : value) :
  built_in (Field.fieldType self) -> null_or_undefined v ->
  Field.defaultCoerce self h v = v ->
  Field.coerce self v h = (Ok v, h).
Proof.
  intros Hft Hv Hdc. unfold Field.coerce. rewrite Hdc.
  destruct Hft as [-> | [-> | [-> | [-> | ->]]]]; destruct Hv as [-> | ->];
    reflexivity.
Qed.

(** X10. A field of a built-in type whose options do not allow [null]
    never validates [null] to an empty list: the coercion hands [null]
    back, and the rules throw or report "must not be null".  So the field
    rejects [null]. *)
Theorem null_is_rejected (self : Field.t) :
  built_in (Field.fieldType self) ->
  ToBoolean (opt_get (Field.typeOptions self) "allowNull") = false ->
  (forall h,
     Field.coerce self VNull h = (Ok VNull, h)
     /\ match Field.validate self h VNull with
        | Throw _ => True
        | Ok fieldErrors => VStr "must not be null" ∈ fieldErrors
        end)
  /\ rejects self VNull.
Proof.
  intros Hft Hallow.
  assert (forall h,
     Field.coerce self VNull h = (Ok VNull, h)
     /\ match Field.validate self h VNull with
        | Throw _ => True
        | Ok fieldErrors => VStr "must not be null" ∈ fieldErrors
        end) as Hall.
  { intros h. split.
    - apply built_in_coerce_absent; [exact Hft|left; reflexivity|].
      apply defaultCoerce_defined. discriminate.
    - destruct (built_in_has_rules _ Hft) as (rs & Hrs & Hnull & _).
      unfold Field.validate. rewrite Hrs.
      apply (run_rules_reports rs h VNull _ rules.nullRule); [exact Hnull| |reflexivity].
      unfold rules.nullRule. rewrite Hallow. reflexivity. }
  split; [exact Hall|].
  intros h. unfold rejects_in. destruct (Hall h) as [-> Hval].
  destruct (Field.validate self h VNull) as [fe|]; [|exact I].
  intros ->. apply elem_of_nil in Hval. exact Hval.
Qed.

(** X11. A field of a built-in type without [defaultValue] whose options
    do not allow [undefined] never validates [undefined] to an empty list:
    the coercion hands [undefined] back, and the rules throw or report
    "must be defined".  So the field rejects a missing value. *)
Theorem undefined_is_rejected (self : Field.t) :
  built_in (Field.fieldType self) ->
  opt_get (Field.typeOptions self) "defaultValue" = VUndefined ->
  ToBoolean (opt_get (Field.typeOptions self) "allowUndefined") = false ->
  (forall h,
     Field.coerce self VUndefined h = (Ok VUndefined, h)
     /\ match Field.validate self h VUndefined with
        | Throw _ => True
        | Ok fieldErrors => VStr "must be defined" ∈ fieldErrors
        end)
  /\ rejects self VUndefined.
Proof.
  intros Hft Hdef Hallow.
  assert (forall h,
     Field.coerce self VUndefined h = (Ok VUndefined, h)
     /\ match Field.validate self h VUndefined with
        | Throw _ => True
        | Ok fieldErrors => VStr "must be defined" ∈ fieldErrors
        end) as Hall.
  { intros h. split.
    - apply built_in_coerce_absent; [exact Hft|right; reflexivity|].
      unfold Field.defaultCoerce. rewrite Hdef. reflexivity.
    - destruct (built_in_has_rules _ Hft) as (rs & Hrs & _ & Hundef).
      unfold Field.validate. rewrite Hrs.
      apply (run_rules_reports rs h VUndefined _ rules.undefinedRule);
        [exact Hundef| |reflexivity].
      unfold rules.undefinedRule. rewrite Hallow. reflexivity. }
  split; [exact Hall|].
  intros h. unfold rejects_in. destruct (Hall h) as [-> Hval].
  destruct (Field.validate self h VUndefined) as [fe|]; [|exact I].
  intros ->. apply elem_of_nil in Hval. exact Hval.
Qed.

(** X12. A defined value of the wrong shape for an int, number, datetime or
    array field comes back from the coercion as it is, and the rules throw
    or report the message of the shape rule. *)
Theorem wrong_shape_is_reported (self : Field.t) (h : heap) (v : value)
    (msg : string) :
  wrong_shape h (Field.fieldType self) v msg ->
  v <> VNull -> v <> VUndefined ->
  Field.coerce self v h = (Ok v, h)
  /\ match Field.validate self h v with
     | Throw _ => True
     | Ok fieldErrors => VStr msg ∈ fieldErrors
     end.
Proof.
  intros Hshape Hnull Hundef.
  assert (is_null v || String.eqb (typeof h v) "undefined" = false) as Hguard.
  { apply orb_false_intro; [destruct v; try reflexivity; contradiction|].
    destruct (String.eqb (typeof h v) "undefined") eqn:E; [|reflexivity].
    apply typeof_undefined in E. contradiction. }
  unfold Field.coerce, Field.validate.
  rewrite defaultCoerce_defined by exact Hundef.
  inversion Hshape as [v' Ht Hft | v' Ht Hft | v' Ht Hd Hft | v' Ha Hft];
    subst v'; cbn [FieldType.coerce FieldType.rules].
  - split; [reflexivity|].
    apply (run_rules_reports _ h v _ rules.isIntRule); [simpl; auto 6| |reflexivity].
    unfold rules.isIntRule. rewrite Hguard.
    destruct v; try reflexivity. discriminate Ht.
  - split; [reflexivity|].
    apply (run_rules_reports _ h v _ rules.isNumberRule); [simpl; auto 6| |reflexivity].
    unfold rules.isNumberRule. rewrite Hguard, Ht. reflexivity.
  - split.
    + destruct v; try reflexivity; try contradiction.
      * discriminate Ht.
      * simpl. simpl in Ht. rewrite Ht. reflexivity.
    + apply (run_rules_reports _ h v _ rules.isDateRule); [simpl; auto 6| |reflexivity].
      unfold rules.isDateRule.
      destruct v; try contradiction; simpl; try reflexivity.
      * simpl in Hd. simpl in Hguard. rewrite Hguard, Hd. reflexivity.
  - split.
    + unfold arrayFieldType; cbn [FieldType.coerce]. rewrite Ha.
      destruct (is_null v || String.eqb (typeof h v) "undefined"); reflexivity.
    + apply (run_rules_reports _ h v _ rules.isArrayRule); [simpl; auto 6| |reflexivity].
      unfold rules.isArrayRule. rewrite Hguard, Ha. reflexivity.
Qed.

Lemma bound_rules_silent (h : heap) (opt : options) (v : value) :
  within_bounds h opt v ->
  rules.maxLengthRule h v opt = Ok VUndefined
  /\ rules.minLengthRule h v opt = Ok VUndefined
  /\ rules.maxRule h v opt = Ok VUndefined
  /\ rules.minRule h v opt = Ok VUndefined.
Proof.
  intros (Hmaxl & Hminl & Hmax & Hmin).
  unfold rules.maxLengthRule, rules.minLengthRule, rules.maxRule, rules.minRule.
  repeat split.
  - destruct Hmaxl as [Hf|(len & Hlen & Hgt)]; [rewrite Hf; reflexivity|].
    rewrite Hlen. simpl. rewrite Hgt. simpl.
    destruct (ToBoolean (opt_get opt "maxLength")); reflexivity.
  - destruct Hminl as [Hf|(len & Hlen & Hlt)]; [rewrite Hf; reflexivity|].
    rewrite Hlen. simpl. rewrite Hlt. simpl.
    destruct (ToBoolean (opt_get opt "minLength")); reflexivity.
  - destruct Hmax as [Hf|Hgt]; [rewrite Hf|rewrite Hgt; simpl];
      destruct (is_null v || _); try destruct (ToBoolean (opt_get opt "max"));
      reflexivity.
  - destruct Hmin as [Hf|Hlt]; [rewrite Hf|rewrite Hlt; simpl];
      destruct (is_null v || _); try destruct (ToBoolean (opt_get opt "min"));
      reflexivity.
Qed.

(** X13. A value of the shape of its field that passes no bound of the
    options passes every rule: a string for a string field, a number
    without fractional part for an int field, a [Date] for a datetime
    field.  A bound that is missing or falsy, such as a [min] of 0, is
    passed by no value. *)
Theorem well_shaped_value_passes (self : Field.t) (h : heap) (v : value) :
  correct_shape h (Field.fieldType self) v ->
  within_bounds h (Field.typeOptions self) v ->
  (forall n, v = VNum n -> has_fraction n = false) ->
  Field.validate self h v = Ok [].
Proof.
  intros Hshape Hbounds Hint. unfold Field.validate.
  destruct (bound_rules_silent _ _ _ Hbounds) as (Hmaxl & Hminl & Hmax & Hmin).
  inversion Hshape as [s Hft Hv | n Hft Hv | l t Hl Hft Hv];
    cbn [FieldType.rules stringFieldType intFieldType datetimeFieldType
         Field.run_rules];
    rewrite <- Hv in *; rewrite ?Hmaxl, ?Hminl, ?Hmax, ?Hmin; simpl;
    unfold rules.nullRule, rules.undefinedRule, rules.isStringRule,
      rules.isIntRule, rules.isDateRule; simpl;
    rewrite ?andb_false_r; simpl.
  - reflexivity.
  - rewrite (Hint n eq_refl). reflexivity.
  - rewrite Hl. simpl. rewrite ?andb_false_r. reflexivity.
Qed.

(** X14. A defined value beyond a bound that its field checks is reported:
    the rules throw or the list holds the message that names the bound,
    for [max] and [min] on int, number and datetime fields and for
    [maxLength] and [minLength] on string and array fields. *)
Theorem bound_violation_is_reported (self : Field.t) (h : heap) (v : value)
    (msg : string) :
  beyond_bound h (Field.typeOptions self) (Field.fieldType self) v msg ->
  match Field.validate self h v with
  | Throw _ => True
  | Ok fieldErrors => VStr msg ∈ fieldErrors
  end.
Proof.
  intros Hbeyond. unfold Field.validate.
  assert (forall v', v' <> VNull -> v' <> VUndefined ->
            is_null v' || String.eqb (typeof h v') "undefined" = false) as Hguard.
  { intros v' Hnull Hundef.
    apply orb_false_intro; [destruct v'; try reflexivity; contradiction|].
    destruct (String.eqb (typeof h v') "undefined") eqn:E; [|reflexivity].
    apply typeof_undefined in E. contradiction. }
  inversion Hbeyond as
      [ft v' s Hft Hnull Hundef Hset Hcmp Hs
      |ft v' s Hft Hnull Hundef Hset Hcmp Hs
      |ft v' len s Hft Hset Hlen Hcmp Hs
      |ft v' len s Hft Hset Hlen Hcmp Hs]; subst v'.
  - assert (rules.maxRule h v (Field.typeOptions self)
            = Ok (VStr ("value must not be greater than " +:+ s))) as Hrule.
    { unfold rules.maxRule. rewrite (Hguard v Hnull Hundef), Hset, Hcmp. simpl.
      rewrite Hs. reflexivity. }
    destruct Hft as [Hft|[Hft|Hft]]; rewrite Hft;
      cbn [FieldType.rules intFieldType numberFieldType datetimeFieldType];
      apply (run_rules_reports _ h v _ rules.maxRule); simpl; auto.
  - assert (rules.minRule h v (Field.typeOptions self)
            = Ok (VStr ("value must be at least " +:+ s))) as Hrule.
    { unfold rules.minRule. rewrite (Hguard v Hnull Hundef), Hset, Hcmp. simpl.
      rewrite Hs. reflexivity. }
    destruct Hft as [Hft|[Hft|Hft]]; rewrite Hft;
      cbn [FieldType.rules intFieldType numberFieldType datetimeFieldType];
      apply (run_rules_reports _ h v _ rules.minRule); simpl; auto.
  - assert (rules.maxLengthRule h v (Field.typeOptions self)
            = Ok (VStr ("must not be greater than " +:+ s +:+ " characters"))) as Hrule.
    { unfold rules.maxLengthRule. rewrite Hset, Hlen. simpl. rewrite Hcmp. simpl.
      rewrite Hs. reflexivity. }
    destruct Hft as [Hft|Hft]; rewrite Hft;
      cbn [FieldType.rules stringFieldType arrayFieldType];
      apply (run_rules_reports _ h v _ rules.maxLengthRule); simpl; auto.
  - assert (rules.minLengthRule h v (Field.typeOptions self)
            = Ok (VStr ("must be at least " +:+ s +:+ " characters"))) as Hrule.
    { unfold rules.minLengthRule. rewrite Hset, Hlen. simpl. rewrite Hcmp. simpl.
      rewrite Hs. reflexivity. }
    destruct Hft as [Hft|Hft]; rewrite Hft;
      cbn [FieldType.rules stringFieldType arrayFieldType];
      apply (run_rules_reports _ h v _ rules.minLengthRule); simpl; auto.
Qed.

End FieldVerdicts.

Section Defaults.
Context `{Host}.

Lemma wrong_shape_reports (self : Field.t) (h : heap) (v : value) (msg : string) :
  wrong_shape h (Field.fieldType self) v msg ->
  v <> VNull -> v <> VUndefined ->
  match Field.validate self h v with
  | Throw _ => True
  | Ok fieldErrors => VStr msg ∈ fieldErrors
  end.
Proof.
  intros Hshape Hnull Hundef.
  assert (is_null v || String.eqb (typeof h v) "undefined" = false) as Hguard.
  { apply orb_false_intro; [destruct v; try reflexivity; contradiction|].
    destruct (String.eqb (typeof h v) "undefined") eqn:E; [|reflexivity].
    apply typeof_undefined in E. contradiction. }
  unfold Field.validate.
  inversion Hshape as [v' Ht Hft | v' Ht Hft | v' Ht Hd Hft | v' Ha Hft];
    subst v'; cbn [FieldType.rules intFieldType numberFieldType datetimeFieldType
                   arrayFieldType].
  - apply (run_rules_reports _ h v _ rules.isIntRule); [simpl; auto 6| |reflexivity].
    unfold rules.isIntRule. rewrite Hguard.
    destruct v; try reflexivity. discriminate Ht.
  - apply (run_rules_reports _ h v _ rules.isNumberRule); [simpl; auto 6| |reflexivity].
    unfold rules.isNumberRule. rewrite Hguard, Ht. reflexivity.
  - apply (run_rules_reports _ h v _ rules.isDateRule); [simpl; auto 6| |reflexivity].
    unfold rules.isDateRule.
    destruct v; try contradiction; simpl; try reflexivity.
    simpl in Hd. simpl in Hguard. rewrite Hguard, Hd. reflexivity.
  - apply (run_rules_reports _ h v _ rules.isArrayRule); [simpl; auto 6| |reflexivity].
    unfold rules.isArrayRule. rewrite Hguard, Ha. reflexivity.
Qed.

Lemma wrong_shape_rejected (self : Field.t) (h : heap) (v : value) (msg : string) :
  wrong_shape h (Field.fieldType self) v msg ->
  v <> VNull -> v <> VUndefined ->
  Field.coerce self v h = (Ok v, h) /\ rejects_in self h v.
Proof.
  intros Hshape Hnull Hundef.
  assert (Field.coerce self v h = (Ok v, h)) as Hco.
  { unfold Field.coerce. rewrite defaultCoerce_defined by exact Hundef.
    inversion Hshape as [v' Ht Hft | v' Ht Hft | v' Ht Hd Hft | v' Ha Hft];
      subst v'; cbn [FieldType.coerce].
    - reflexivity.
    - reflexivity.
    - destruct v; try reflexivity; try contradiction.
      + discriminate Ht.
      + simpl. simpl in Ht. rewrite Ht. reflexivity.
    - unfold arrayFieldType; cbn [FieldType.coerce]. rewrite Ha.
      destruct (is_null v || String.eqb (typeof h v) "undefined"); reflexivity. }
  split; [exact Hco|]. unfold rejects_in. rewrite Hco.
  pose proof (wrong_shape_reports self h v msg Hshape Hnull Hundef) as Hrep.
  destruct (Field.validate self h v) as [fe|]; [|exact I].
  intros ->. apply (elem_of_nil (VStr msg)), Hrep.
Qed.

(** C3.  A function given as [defaultValue] is never called:
    [defaultCoerce] hands the function itself to the field type's
    [coerce].  On an int, number, datetime or array field it comes back
    as the result of [Field.coerce(undefined)], and the field then rejects
    it: a datetime field without [max] and [min], as the model of the
    tests declares it, reports "value is not a date" for its own
    default. *)
Theorem default_function_is_not_called (self : Field.t) (h : heap) (lf : loc)
    (arity : nat) (returns : value) :
  opt_get (Field.typeOptions self) "defaultValue" = VRef lf ->
  h !! lf = Some (OFun arity returns) ->
  Field.defaultCoerce self h VUndefined = VRef lf
  /\ (Field.fieldType self = intFieldType \/ Field.fieldType self = numberFieldType
      \/ Field.fieldType self = datetimeFieldType
      \/ Field.fieldType self = arrayFieldType ->
      Field.coerce self VUndefined h = (Ok (VRef lf), h)
      /\ rejects_in self h VUndefined)
  /\ (Field.fieldType self = datetimeFieldType ->
      ToBoolean (opt_get (Field.typeOptions self) "max") = false ->
      ToBoolean (opt_get (Field.typeOptions self) "min") = false ->
      Field.validate self h (VRef lf) = Ok [VStr "value is not a date"]).
Proof.
  intros Hdef Hlf.
  assert (Field.defaultCoerce self h VUndefined = VRef lf) as Hdc.
  { unfold Field.defaultCoerce. rewrite Hdef. simpl. rewrite Hlf. reflexivity. }
  split; [exact Hdc|]. split.
  - intros Hft.
    assert (Field.coerce self VUndefined h = (Ok (VRef lf), h)) as Hco.
    { unfold Field.coerce. rewrite Hdc.
      destruct Hft as [Hft|[Hft|[Hft|Hft]]]; rewrite Hft; simpl; rewrite ?Hlf;
        reflexivity. }
    split; [exact Hco|]. unfold rejects_in. rewrite Hco.
    assert (exists msg, wrong_shape h (Field.fieldType self) (VRef lf) msg)
      as [msg Hshape].
    { destruct Hft as [Hft|[Hft|[Hft|Hft]]]; rewrite Hft; eexists.
      - apply wrong_int. simpl. rewrite Hlf. reflexivity.
      - apply wrong_number. simpl. rewrite Hlf. reflexivity.
      - apply wrong_datetime; simpl; rewrite Hlf; reflexivity.
      - apply wrong_array. simpl. rewrite Hlf. reflexivity. }
    pose proof (wrong_shape_reports self h (VRef lf) msg Hshape) as Hrep.
    destruct (Field.validate self h (VRef lf)) as [fe|]; [|exact I].
    intros ->. apply (elem_of_nil (VStr msg)). apply Hrep; discriminate.
  - intros Hft Hmax Hmin. unfold Field.validate. rewrite Hft. simpl.
    unfold rules.maxRule, rules.minRule, rules.nullRule, rules.undefinedRule,
      rules.isDateRule.
    rewrite Hmax, Hmin. simpl. rewrite Hlf. simpl.
    rewrite ?andb_false_r. reflexivity.
Qed.

End Defaults.


(** ** Types as the library builds them *)

Section Declared.
Context `{Host}.

(** [Type.field] with the name of a built-in field type keeps a type made
    of built-in fields so: the name it admits is not one that
    [Object.prototype] defines.  A new type has no field at all. *)
Lemma field_keeps_built_in (getFieldType : string -> lookup_result FieldType.t)
    (self self' : Type'.t) (fieldName typeName : string)
    (typeOptions : option options) (ft : FieldType.t) :
  getFieldType typeName = Own ft -> built_in ft ->
  built_in_fields self ->
  Type'.field getFieldType self fieldName typeName typeOptions = Ok self' ->
  built_in_fields self'.
Proof.
  intros Hget Hft Hself. unfold Type'.field. rewrite Hget.
  destruct (js_in fieldName (Type'.fields self)) eqn:Hin; [discriminate|].
  intros [= <-] k f Hkf. cbn [Type'.fields] in Hkf.
  apply elem_of_own_set in Hkf as [[= -> ->]|Hkf]; [|exact (Hself k f Hkf)].
  unfold js_in in Hin. apply orb_false_elim in Hin as [_ Hname].
  split; [exact Hname|exact Hft].
Qed.

End Declared.


(** ** What a call of [Model.validate] reports *)

Lemma validate_field_outcome (res : value) (k : string) (fi : fieldInfo)
    (errs : list FieldError) (h : heap) :
  exists new h',
    Model.validate_field res k fi errs h = (Ok (errs ++ new), h')
    /\ (forall e, e ∈ new -> field e = k /\ exists f, fi_field fi = Some f)
    /\ (forall f, fi_field fi = Some f -> rejects_in f h (fi_value fi) -> new <> []).
Proof.
  unfold Model.validate_field. destruct (fi_field fi) as [f|].
  2:{ exists [], h. rewrite app_nil_r. split; [reflexivity|]. split.
      - intros e He. apply elem_of_nil in He. contradiction.
      - discriminate. }
  unfold try_catch, bind, lift_read.
  destruct (Field.coerce f (fi_value fi) h) as [[c|ex] h1] eqn:Hco.
  2:{ eexists [_], h1. split; [reflexivity|]. split.
      - intros e He. apply list_elem_of_singleton in He as ->. eauto.
      - discriminate. }
  destruct (Field.validate f h1 c) as [fe|ex] eqn:Hval.
  2:{ eexists [_], h1. split; [reflexivity|]. split.
      - intros e He. apply list_elem_of_singleton in He as ->. eauto.
      - discriminate. }
  assert (exists h2, set_prop res k c h1 = (Ok tt, h2)) as [h2 ->].
  { unfold set_prop. destruct res as [| | | | |l]; try (eexists; reflexivity).
    destruct (h1 !! l) as [[]|]; eexists; reflexivity. }
  eexists _, h2. split; [reflexivity|]. split.
  - intros e He. apply list_elem_of_fmap in He as (m & -> & _). eauto.
  - intros f' [= <-] Hrej. unfold rejects_in in Hrej. rewrite Hco, Hval in Hrej.
    destruct fe; [contradiction|discriminate].
Qed.

Lemma validate_fields_outcome (res : value) (summary : props fieldInfo) :
  forall (errs : list FieldError) (h : heap),
  exists new h',
    Model.validate_fields res summary errs h = (Ok (errs ++ new), h')
    /\ (forall e, e ∈ new ->
          exists fi f, (field e, fi) ∈ summary /\ fi_field fi = Some f).
Proof.
  induction summary as [|[k fi] summary IH]; intros errs h.
  - exists [], h. simpl. rewrite app_nil_r. split; [reflexivity|].
    intros e He. apply elem_of_nil in He. contradiction.
  - destruct (validate_field_outcome res k fi errs h) as
      (new1 & h1 & Hrun1 & Hfields1 & _).
    destruct (IH (errs ++ new1) h1) as (new2 & h2 & Hrun2 & Hfields2).
    exists (new1 ++ new2), h2. split.
    + simpl. unfold bind. rewrite Hrun1, Hrun2, app_assoc. reflexivity.
    + intros e He. apply elem_of_app in He as [He|He].
      * destruct (Hfields1 e He) as [<- [f Hf]].
        exists fi, f. split; [apply list_elem_of_here|exact Hf].
      * destruct (Hfields2 e He) as (fi' & f & Hin & Hf).
        exists fi', f. split; [apply list_elem_of_further, Hin|exact Hf].
Qed.

(** The loop in heaps that extend [h0], where the result object is not:
    an entry whose field rejects its value in every such heap leaves an
    error under its name. *)
Lemma validate_fields_rejected (lr : loc) (h0 : heap)
    (summary : props fieldInfo) :
  h0 !! lr = None ->
  forall (errs : list FieldError) (h : heap) (ps : props value),
  h0 ⊆ h -> h !! lr = Some (OPlain ps) ->
  (forall k fi f, (k, fi) ∈ summary -> fi_field fi = Some f ->
                  only_allocates (Field.fieldType f)) ->
  exists new h',
    Model.validate_fields (VRef lr) summary errs h = (Ok (errs ++ new), h')
    /\ forall k fi f, (k, fi) ∈ summary -> fi_field fi = Some f ->
         (forall hi, h0 ⊆ hi -> rejects_in f hi (fi_value fi)) ->
         exists e, e ∈ new /\ field e = k.
Proof.
  intros Hfresh.
  induction summary as [|[k fi] summary IH]; intros errs h ps Hsub Hlr Hft.
  - exists [], h. simpl. rewrite app_nil_r. split; [reflexivity|].
    intros k fi f Hin. apply elem_of_nil in Hin. contradiction.
  - destruct (validate_field_round lr k fi errs h ps) as
      (new1 & h1 & ps1 & Hrun1 & Hkeep1 & Hlr1 & _); [|exact Hlr|].
    { intros f Hf. apply (Hft k fi f); [apply list_elem_of_here|exact Hf]. }
    destruct (validate_field_outcome (VRef lr) k fi errs h) as
      (new1' & h1' & Hrun1' & Hfields1 & Hrej1).
    rewrite Hrun1 in Hrun1'. injection Hrun1' as Hnew _.
    apply app_inv_head in Hnew. subst new1'.
    pose proof (keeps_others_subseteq lr h0 h h1 Hfresh Hsub Hkeep1) as Hsub1.
    destruct (IH (errs ++ new1) h1 ps1 Hsub1 Hlr1) as (new2 & h2 & Hrun2 & Hrej2).
    { intros k' fi' f Hin Hf.
      apply (Hft k' fi' f); [apply list_elem_of_further, Hin|exact Hf]. }
    exists (new1 ++ new2), h2. split.
    + simpl. unfold bind. rewrite Hrun1, Hrun2, app_assoc. reflexivity.
    + intros k' fi' f Hin Hf Hrej. apply elem_of_cons in Hin as [[= -> ->]|Hin].
      * specialize (Hrej1 f Hf (Hrej h Hsub)).
        destruct new1 as [|e new1]; [contradiction|].
        exists e. split; [apply elem_of_app; left; apply list_elem_of_here|].
        apply (Hfields1 e). apply list_elem_of_here.
      * destruct (Hrej2 k' fi' f Hin Hf Hrej) as (e & He & Hk).
        exists e. split; [apply elem_of_app; right; exact He|exact Hk].
Qed.

Section Reports.
Context `{Host}.

(** Past the guard, a root value that is not a string is checked for
    being an object and then read field by field. *)
Lemma validate_past_guard (self : Model.t) (data : value) (typeName : string)
    (h : heap) :
  has_own (if String.eqb typeName "" then "true" else "false") (Model.types self)
  = false ->
  (forall s, data <> VStr s) ->
  Model.validate self data typeName h
  = if negb (String.eqb (typeof h data) "object")
    then (Throw (ModelMeError
      "Value passed to data param of validate() function must be an object or a json string"), h)
    else (fieldSummary <- Model.getFieldSummary data
                            (js_get typeName (Model.types self)) ;;
          result <- alloc (OPlain []) ;;
          errors <- Model.validate_fields result fieldSummary [] ;;
          ret {| entity := if (0 <? length errors)%nat then VNull else result;
                 errors := errors |})%js h.
Proof.
  intros Hguard Hdata. unfold Model.validate. rewrite type_guard_key, Hguard.
  destruct data as [| |b|n|s|l]; try (exfalso; apply (Hdata s); reflexivity);
    unfold bind at 1; destruct (negb _); reflexivity.
Qed.

(** X15. A plain call of [Model.validate] throws for three reasons only,
    each before any field is looked at and with the heap untouched: the
    guard on the type name fires; the root is not an object; the type name
    reads as nothing in [types].  In every other case it returns: no
    error of a field makes the call throw. *)
Theorem validate_throws_only_at_the_root (self : Model.t) (data : value)
    (typeName : string) (h : heap) :
  plain_call self data typeName h ->
  let guard := has_own (if String.eqb typeName "" then "true" else "false")
                       (Model.types self) in
  match Model.validate self data typeName h with
  | (Ok r, h') =>
      guard = false /\ typeof h data = "object"
      /\ js_get typeName (Model.types self) <> Absent
  | (Throw e, h') =>
      h' = h
      /\ ((guard = true
           /\ e = ModelMeError ("The type '" +:+ typeName +:+ "' does not exist"))
          \/ (guard = false /\ typeof h data <> "object"
              /\ e = ModelMeError
                   "Value passed to data param of validate() function must be an object or a json string")
          \/ (guard = false /\ typeof h data = "object"
              /\ js_get typeName (Model.types self) = Absent
              /\ e = TypeError))
  end.
Proof.
  intros (Hdata & _) guard. subst guard.
  destruct (has_own (if String.eqb typeName "" then "true" else "false")
                    (Model.types self)) eqn:Hguard.
  { unfold Model.validate. rewrite type_guard_key, Hguard.
    split; [reflexivity|left; split; reflexivity]. }
  rewrite (validate_past_guard self data typeName h Hguard Hdata).
  destruct (String.eqb_spec (typeof h data) "object") as [Hobj|Hobj]; simpl.
  2:{ split; [reflexivity|]. right. left. auto. }
  unfold bind at 1.
  destruct (js_get typeName (Model.types self)) as [ty| |] eqn:Hty;
    [| |split; [reflexivity|]; right; right; auto].
  all: destruct (Model.getFieldSummary data _ h) as [[summary|ex] h1] eqn:Hsum;
    [|discriminate Hsum].
  all: unfold bind at 1, alloc.
  all: unfold bind at 1.
  all: match goal with
       | |- context [Model.validate_fields ?res ?sm [] ?h0] =>
           destruct (validate_fields_outcome res sm [] h0) as (new & h' & -> & _)
       end.
  all: simpl; repeat split; [exact Hobj|discriminate].
Qed.

(** X16. JSON text as the root value.  Past the guard, what [JSON.parse]
    throws is what the call throws; and when the text parses to an object,
    the call is the call on that object, in the heap the parser leaves. *)
Theorem validate_json_text (self : Model.t) (text typeName : string) (h : heap) :
  has_own (if String.eqb typeName "" then "true" else "false") (Model.types self)
  = false ->
  match JSON_parse text h with
  | (Throw e, h1) => Model.validate self (VStr text) typeName h = (Throw e, h1)
  | (Ok obj, h1) =>
      (forall s, obj <> VStr s) -> typeof h1 obj = "object" ->
      Model.validate self (VStr text) typeName h
      = Model.validate self obj typeName h1
  end.
Proof.
  intros Hguard.
  destruct (JSON_parse text h) as [[obj|e] h1] eqn:Hparse.
  - intros Hobj Htype.
    rewrite (validate_past_guard self obj typeName h1 Hguard Hobj), Htype.
    unfold Model.validate. rewrite type_guard_key, Hguard.
    unfold bind at 1. rewrite Hparse. reflexivity.
  - unfold Model.validate. rewrite type_guard_key, Hguard.
    unfold bind at 1. rewrite Hparse. reflexivity.
Qed.

(** X17. Every error that a plain call of [Model.validate] returns names
    a field that the type declares: a property of the input that the type
    does not declare is never reported. *)
Theorem errors_name_declared_fields (self : Model.t) (data : value)
    (typeName : string) (h h' : heap) (r : ValidationResult) :
  plain_call self data typeName h ->
  Model.validate self data typeName h = (Ok r, h') ->
  forall e, e ∈ errors r ->
    exists ty f, js_get typeName (Model.types self) = Own ty
                 /\ (field e, f) ∈ Type'.fields ty.
Proof.
  intros _ Hrun e He.
  apply validate_Ok_inv in Hrun as
    (obj & h1 & summary & le & errs & _ & _ & Hsum & _ & Hloop & ->).
  destruct (validate_fields_outcome (VRef le) summary [] (<[le := OPlain []]> h1))
    as (new & h2 & Hloop' & Hfields).
  rewrite Hloop' in Hloop. injection Hloop as <- _. simpl in He.
  destruct (Hfields e He) as (fi & f & Hin & Hf).
  destruct (getFieldSummary_fields _ _ _ _ _ _ _ _ Hsum Hin Hf) as (ty & Hty & Hkf).
  exists ty, f. split; assumption.
Qed.

(** The entry of the summary for a declared field, present in the input
    object or not. *)
Lemma summary_entry_of_field (lo : loc) (ips : props value) (ty : Type'.t)
    (h : heap) (summary : props fieldInfo) (k : string) (f : Field.t) :
  h !! lo = Some (OPlain ips) -> NoDup ips.*1 -> NoDup (Type'.fields ty).*1 ->
  Model.getFieldSummary (VRef lo) (Own ty) h = (Ok summary, h) ->
  own_get k (Type'.fields ty) = Some f ->
  has_own k ips = true \/ inherited k = false ->
  (k, {| fi_value := opt_get ips k; fi_field := Some f |}) ∈ summary.
Proof.
  intros Hlo Hips Hfs Hsum Hf Hk.
  destruct (getFieldSummary_NoDup _ _ _ _ _ Hsum) as [Hnd _].
  apply (own_get_Some_elem _ _ _ Hnd).
  unfold Model.getFieldSummary in Hsum. injection Hsum as <-.
  rewrite (own_get_add_fields k _ Hfs), Hf. unfold enumerate. rewrite Hlo.
  rewrite (own_get_add_values k _ Hips). unfold opt_get, has_own in *.
  destruct (own_get k ips); simpl; [reflexivity|].
  destruct Hk as [Hk|Hk]; [discriminate|rewrite Hk; reflexivity].
Qed.

(** X18. In an [object_run], when a declared field rejects the value the
    input object holds for it ([undefined] for a missing property), in
    every heap that holds the objects of the call's heap unchanged, the
    call returns a [null] entity and an error that names the field,
    whatever the other fields do. *)
Theorem rejected_field_is_reported (self : Model.t) (typeName : string)
    (ty : Type'.t) (lo : loc) (ips : props value) (h h' : heap)
    (r : ValidationResult) (k : string) (f : Field.t) :
  object_run self typeName ty lo ips h r h' ->
  own_get k (Type'.fields ty) = Some f ->
  (forall hi, h ⊆ hi -> rejects_in f hi (opt_get ips k)) ->
  entity r = VNull /\ exists e, e ∈ errors r /\ field e = k.
Proof.
  intros Hobject Hf Hrej.
  destruct (object_run_fields _ _ _ _ _ _ _ _ Hobject) as [_ Hbuilt].
  destruct Hobject as (Hty & Hfs & Hlo & Hips & _ & Hrun).
  assert (inherited k = false) as Hk
    by exact (proj1 (Hbuilt k f (proj1 (own_get_Some_elem k f _ Hfs) Hf))).
  apply validate_Ok_inv in Hrun as
    (obj & h1 & summary & le & errs & _ & Hobj & Hsum & Hfresh & Hloop & ->).
  destruct (Hobj lo eq_refl) as [-> ->].
  unfold js_get in Hsum. rewrite Hty in Hsum.
  pose proof (summary_entry_of_field lo ips ty h summary k f Hlo Hips Hfs Hsum Hf
                (or_intror Hk)) as Hin.
  destruct (validate_fields_rejected le h summary Hfresh []
              (<[le := OPlain []]> h) [])
    as (new & h2 & Hloop' & Hrejected).
  { apply insert_subseteq, Hfresh. }
  { apply lookup_insert_eq. }
  { intros k' fi f' Hin' Hf'.
    destruct (getFieldSummary_fields _ _ _ _ _ _ _ _ Hsum Hin' Hf')
      as (ty' & [= <-] & Hkf).
    exact (proj2 (Hbuilt k' f' Hkf)). }
  rewrite Hloop' in Hloop. injection Hloop as <- _.
  destruct (Hrejected k _ f Hin eq_refl Hrej) as (e & He & Hfield).
  simpl. split; [|exists e; auto].
  destruct new; [apply elem_of_nil in He; contradiction|reflexivity].
Qed.

End Reports.

(** ** The fields of the entity *)

Lemma validate_fields_keys (lr : loc) (summary : props fieldInfo) :
  forall (errs : list FieldError) (h : heap) (ps : props value),
  (forall k fi f, (k, fi) ∈ summary -> fi_field fi = Some f ->
                  only_allocates (Field.fieldType f)) ->
  h !! lr = Some (OPlain ps) ->
  exists new h' ps',
    Model.validate_fields (VRef lr) summary errs h = (Ok (errs ++ new), h')
    /\ h' !! lr = Some (OPlain ps')
    /\ (new = [] ->
        forall k, has_own k ps' = true
                  <-> has_own k ps = true
                      \/ exists fi f, (k, fi) ∈ summary /\ fi_field fi = Some f).
Proof.
  induction summary as [|[k fi] summary IH]; intros errs h ps Hft Hlr.
  - exists [], h, ps. simpl. rewrite app_nil_r. unfold ret.
    split; [reflexivity|]. split; [exact Hlr|]. intros _ k. split; [auto|].
    intros [Hown|(fi & f & Hin & _)]; [exact Hown|].
    apply elem_of_nil in Hin. contradiction.
  - destruct (validate_field_round lr k fi errs h ps) as
      (new1 & h1 & ps1 & Hrun1 & _ & Hlr1 & Hstored1); [|exact Hlr|].
    { intros f Hf. apply (Hft k fi f); [apply list_elem_of_here|exact Hf]. }
    destruct (IH (errs ++ new1) h1 ps1) as (new2 & h2 & ps2 & Hrun2 & Hlr2 & Hkeys2);
      [|exact Hlr1|].
    { intros k' fi' f Hin Hf. apply (Hft k' fi' f); [apply list_elem_of_further, Hin|exact Hf]. }
    exists (new1 ++ new2), h2, ps2. split; [|split; [exact Hlr2|]].
    + simpl. unfold bind. rewrite Hrun1, Hrun2, app_assoc. reflexivity.
    + intros Hnone k'. apply app_eq_nil in Hnone as [Hnone1 Hnone2].
      rewrite (Hkeys2 Hnone2 k'). specialize (Hstored1 Hnone1).
      unfold round_stored in Hstored1.
      setoid_rewrite elem_of_cons.
      destruct (fi_field fi) as [f|] eqn:Hfi.
      * destruct Hstored1 as (c & h1' & _ & _ & _ & ->).
        unfold has_own at 1. rewrite own_get_own_set. fold (has_own k' ps).
        destruct (String.eqb_spec k' k) as [->|Hne].
        -- split; [|auto]. intros _. right. exists fi, f. auto.
        -- split.
           ++ intros [Hown|(fi' & f' & Hin & Hf')]; [auto|].
              right. exists fi', f'. auto.
           ++ intros [Hown|(fi' & f' & [[= ? ?]|Hin] & Hf')];
                [auto|contradiction|].
              right. exists fi', f'. auto.
      * subst ps1. split.
        -- intros [Hown|(fi' & f' & Hin & Hf')]; [auto|].
           right. exists fi', f'. auto.
        -- intros [Hown|(fi' & f' & [[= ? ?]|Hin] & Hf')];
             [auto|subst; congruence|].
           right. exists fi', f'. auto.
Qed.

Section Entity.
Context `{Host}.

(** X19. The entity of an [object_run] without errors is a new plain
    object whose properties are the declared fields and nothing else: a
    property of the input that the type does not declare is dropped, and a
    declared field that the input lacks is there all the same. *)
Theorem entity_has_the_declared_fields (self : Model.t) (typeName : string)
    (ty : Type'.t) (lo : loc) (ips : props value) (h h' : heap)
    (r : ValidationResult) :
  object_run self typeName ty lo ips h r h' ->
  errors r = [] ->
  exists le ps,
    entity r = VRef le /\ h !! le = None /\ h' !! le = Some (OPlain ps)
    /\ forall k, has_own k ps = true <-> has_own k (Type'.fields ty) = true.
Proof.
  intros Hobject Hnone.
  destruct (object_run_fields _ _ _ _ _ _ _ _ Hobject) as [_ Hbuilt].
  destruct Hobject as (Hty & Hfs & Hlo & Hips & _ & Hrun).
  apply validate_Ok_inv in Hrun as
    (obj & h1 & summary & le & errs & _ & Hobj & Hsum & Hfresh & Hloop & ->).
  destruct (Hobj lo eq_refl) as [-> ->].
  unfold js_get in Hsum. rewrite Hty in Hsum.
  simpl in Hnone. subst errs. simpl.
  destruct (validate_fields_keys le summary [] (<[le := OPlain []]> h) [])
    as (new & h2 & ps & Hloop' & Hle & Hkeys).
  { intros k fi f Hin Hf.
    destruct (getFieldSummary_fields _ _ _ _ _ _ _ _ Hsum Hin Hf) as (ty' & [= <-] & Hkf).
    exact (proj2 (Hbuilt k f Hkf)). }
  { apply lookup_insert_eq. }
  rewrite Hloop' in Hloop. injection Hloop as Hnew <-. simpl in Hnew.
  exists le, ps. split; [reflexivity|]. split; [exact Hfresh|]. split; [exact Hle|].
  intros k. rewrite (Hkeys Hnew k).
  destruct (getFieldSummary_NoDup _ _ _ _ _ Hsum) as [Hnd _].
  unfold has_own. split.
  - intros [Hown|(fi & f & Hin & Hf)]; [discriminate Hown|].
    destruct (getFieldSummary_fields _ _ _ _ _ _ _ _ Hsum Hin Hf)
      as (ty' & [= <-] & Hkf).
    apply (own_get_Some_elem _ _ _ Hfs) in Hkf. rewrite Hkf. reflexivity.
  - intros Hdecl. right.
    destruct (own_get k (Type'.fields ty)) as [f|] eqn:Hf; [|discriminate Hdecl].
    assert (inherited k = false) as Hk
      by exact (proj1 (Hbuilt k f (proj1 (own_get_Some_elem k f _ Hfs) Hf))).
    exists {| fi_value := opt_get ips k; fi_field := Some f |}, f.
    split; [|reflexivity].
    exact (summary_entry_of_field lo ips ty h summary k f Hlo Hips Hfs Hsum Hf
             (or_intror Hk)).
Qed.

End Entity.


(** ** The properties above on the example host *)

(** An int field hands a string back as it is. *)
Lemma built_in_coerce_passes_witness :
  let age := Field.new (@intFieldType example_host) "age"
               (Some [("min", VNum 0); ("max", VNum 200)]) in
  Field.coerce age (VStr "old") ∅ = (Ok (VStr "old"), ∅).
Proof.
  intros age.
  apply (@built_in_coerce_passes example_host age ∅ (VStr "old")).
  - right. left. reflexivity.
  - discriminate.
  - discriminate.
  - discriminate.
  - discriminate.
Defined.

(** The array of friends is copied to a new location. *)
Lemma array_coerce_fresh_copy_witness :
  let friends := Field.new (@arrayFieldType example_host) "friends" None in
  exists la',
    Field.coerce friends (VRef 3%positive) dated_family
    = (Ok (VRef la'), <[la' := OArray [VRef 4%positive]]> dated_family)
    /\ dated_family !! la' = None /\ la' <> 3%positive.
Proof.
  intros friends.
  apply (@array_coerce_fresh_copy example_host friends dated_family 3%positive
           [VRef 4%positive]).
  - reflexivity.
  - reflexivity.
Defined.

(** A text that is no date is rejected; the instant the host knows gives a
    new [Date]. *)
Lemma datetime_coerce_string_witness :
  let created := Field.new (@datetimeFieldType example_host) "created" None in
  (Field.coerce created (VStr "yesterday") ∅
   = (Throw (Thrown (VStr "not a valid date string: 'yesterday'")), ∅)
   /\ rejects created (VStr "yesterday"))
  /\ exists ld, Field.coerce created (VStr "2014-01-01T12:00:00.000Z") ∅
                = (Ok (VRef ld), <[ld := ODate 1388577600000%float]> ∅)
                /\ (∅ : heap) !! ld = None.
Proof.
  intros created. split.
  - apply (@datetime_coerce_string example_host created ∅ "yesterday");
      reflexivity.
  - apply (@datetime_coerce_string example_host created ∅ "2014-01-01T12:00:00.000Z");
      reflexivity.
Defined.

(** [null] for an age between 0 and 200. *)
Lemma null_is_rejected_witness :
  let age := Field.new (@intFieldType example_host) "age"
               (Some [("min", VNum 0); ("max", VNum 200)]) in
  rejects age VNull.
Proof.
  intros age.
  apply (@null_is_rejected example_host age).
  - right. left. reflexivity.
  - reflexivity.
Defined.

(** A missing name. *)
Lemma undefined_is_rejected_witness :
  let name := Field.new (@stringFieldType example_host) "name" None in
  rejects name VUndefined.
Proof.
  intros name.
  apply (@undefined_is_rejected example_host name).
  - left. reflexivity.
  - reflexivity.
  - reflexivity.
Defined.

(** A string for an age. *)
Lemma wrong_shape_is_reported_witness :
  let age := Field.new (@intFieldType example_host) "age" None in
  Field.coerce age (VStr "old") ∅ = (Ok (VStr "old"), ∅)
  /\ match Field.validate age ∅ (VStr "old") with
     | Throw _ => True
     | Ok fieldErrors => VStr "value must be a number" ∈ fieldErrors
     end.
Proof.
  intros age.
  apply (@wrong_shape_is_reported example_host age ∅ (VStr "old")
           "value must be a number").
  - apply wrong_int. reflexivity.
  - discriminate.
  - discriminate.
Defined.

(** An age below 0 under a [min] of 0 and a [max] of 200: the [min] sets
    no bound. *)
Lemma well_shaped_value_passes_witness :
  let age := Field.new (@intFieldType example_host) "age"
               (Some [("min", VNum 0); ("max", VNum 200)]) in
  Field.validate age ∅ (VNum (-5)) = Ok [].
Proof.
  intros age.
  apply (@well_shaped_value_passes example_host age ∅ (VNum (-5))).
  - apply shape_int.
  - split; [left; reflexivity|]. split; [left; reflexivity|].
    split; [right; reflexivity|left; reflexivity].
  - intros n [= <-]. reflexivity.
Defined.

(** An age of 300 under a [max] of 200. *)
Lemma bound_violation_is_reported_witness :
  let age := Field.new (@intFieldType example_host) "age"
               (Some [("min", VNum 0); ("max", VNum 200)]) in
  match Field.validate age ∅ (VNum 300) with
  | Throw _ => True
  | Ok fieldErrors => VStr "value must not be greater than 200" ∈ fieldErrors
  end.
Proof.
  intros age.
  apply (@bound_violation_is_reported example_host age ∅ (VNum 300)
           "value must not be greater than 200").
  apply (@above_max example_host ∅ (Field.typeOptions age) (Field.fieldType age)
           (VNum 300) "200").
  - left. reflexivity.
  - discriminate.
  - discriminate.
  - reflexivity.
  - reflexivity.
  - reflexivity.
Defined.

(** A number as the root value: the second of the three reasons. *)
Lemma validate_throws_only_at_the_root_witness :
  exists e,
    @Model.validate example_host (@datedPersonModel example_host)
      (VNum 5) "Person" ∅ = (Throw e, ∅)
    /\ e = ModelMeError
         "Value passed to data param of validate() function must be an object or a json string".
Proof.
  assert (@plain_call example_host (@datedPersonModel example_host)
            (VNum 5) "Person" ∅) as Hcall.
  { apply (@datedPerson_call example_host); [discriminate|reflexivity|].
    apply map_Forall_empty. }
  pose proof (@validate_throws_only_at_the_root example_host
                (@datedPersonModel example_host) (VNum 5) "Person" ∅ Hcall)
    as Hroot.
  cbv zeta in Hroot.
  destruct (@Model.validate example_host (@datedPersonModel example_host)
              (VNum 5) "Person" ∅) as [[r|e] h'].
  - destruct Hroot as (_ & Hobj & _). discriminate Hobj.
  - destruct Hroot as [-> [[Hguard _]|[(_ & _ & ->)|(_ & Hobj & _)]]];
      [discriminate Hguard| |discriminate Hobj].
    exists (ModelMeError
      "Value passed to data param of validate() function must be an object or a json string").
    split; reflexivity.
Defined.

(** The text of an empty object is validated as a new empty object. *)
Lemma validate_json_text_witness :
  @Model.validate example_host (@simplePersonModel example_host)
    (VStr "{}") "Person" ∅
  = @Model.validate example_host (@simplePersonModel example_host)
      (VRef 1%positive) "Person" {[ 1%positive := OPlain [] ]}.
Proof.
  pose proof (@validate_json_text example_host (@simplePersonModel example_host)
                "{}" "Person" ∅ eq_refl) as Htext.
  change (@JSON_parse example_host "{}" ∅)
    with (Ok (VRef 1%positive), ({[ 1%positive := OPlain [] ]} : heap)) in Htext.
  apply Htext; [discriminate|reflexivity].
Defined.

(** A person without a name and with a property the type does not declare:
    the one error names [name]. *)
Lemma errors_name_declared_fields_witness :
  let h : heap :=
    {[ 1%positive := OPlain [("created", VRef 2%positive); ("friends", VRef 3%positive);
                             ("nickname", VNum 7)];
       2%positive := ODate 1388577600000%float;
       3%positive := OArray [];
       8%positive := OArray [] ]} in
  exists r h',
    @Model.validate example_host (@datedPersonModel example_host)
      (VRef 1%positive) "Person" h = (Ok r, h')
    /\ errors r <> []
    /\ forall e, e ∈ errors r ->
         exists ty f,
           js_get "Person" (Model.types (@datedPersonModel example_host)) = Own ty
           /\ (field e, f) ∈ Type'.fields ty.
Proof.
  intros h.
  let v := eval vm_compute in
    (@Model.validate example_host (@datedPersonModel example_host)
       (VRef 1%positive) "Person" h) in
  assert (@Model.validate example_host (@datedPersonModel example_host)
            (VRef 1%positive) "Person" h = v) as Hrun by (vm_compute; reflexivity).
  assert (@plain_call example_host (@datedPersonModel example_host)
            (VRef 1%positive) "Person" h) as Hcall.
  { apply (@datedPerson_call example_host); [discriminate|reflexivity|].
    unfold no_methods. apply (bool_decide_unpack _). vm_compute. exact I. }
  eexists _, _. split; [exact Hrun|]. split; [discriminate|].
  exact (@errors_name_declared_fields example_host _ _ _ _ _ _ Hcall Hrun).
Defined.

(** A person whose date of creation is an array: the datetime field
    rejects the array wherever it is still that array, and the entity is
    [null]. *)
Lemma rejected_field_is_reported_witness :
  let h : heap :=
    {[ 1%positive := OPlain [("name", VStr "Graeme"); ("created", VRef 3%positive);
                             ("nickname", VNum 7)];
       3%positive := OArray [];
       8%positive := OArray [] ]} in
  exists r h',
    @Model.validate example_host (@datedPersonModel example_host)
      (VRef 1%positive) "Person" h = (Ok r, h')
    /\ entity r = VNull
    /\ exists e, e ∈ errors r /\ field e = "created".
Proof.
  intros h.
  let v := eval vm_compute in
    (@Model.validate example_host (@datedPersonModel example_host)
       (VRef 1%positive) "Person" h) in
  assert (@Model.validate example_host (@datedPersonModel example_host)
            (VRef 1%positive) "Person" h = v) as Hrun by (vm_compute; reflexivity).
  eexists _, _. split; [exact Hrun|].
  eapply (@rejected_field_is_reported example_host
           (@datedPersonModel example_host) "Person" (@datedPerson example_host)
           1%positive
           [("name", VStr "Graeme"); ("created", VRef 3%positive);
            ("nickname", VNum 7)]
           h _ _ "created"
           (Field.new (@datetimeFieldType example_host) "created" None)).
  - apply (@datedPerson_run example_host).
    + reflexivity.
    + apply (bool_decide_unpack _). vm_compute. exact I.
    + reflexivity.
    + unfold no_methods. apply (bool_decide_unpack _). vm_compute. exact I.
    + exact Hrun.
  - reflexivity.
  - intros hi Hsub.
    assert (hi !! 3%positive = Some (OArray [])) as Harr
      by exact (lookup_weaken h hi 3%positive (OArray []) eq_refl Hsub).
    apply (@wrong_shape_rejected example_host _ hi (VRef 3%positive)
             "value is not a date"); [|discriminate|discriminate].
    apply (@wrong_datetime example_host); simpl; rewrite Harr; reflexivity.
Defined.

(** A valid person with a property the type does not declare: the entity
    has [name], [created] and [friends], and no [nickname]. *)
Lemma entity_has_the_declared_fields_witness :
  let h : heap :=
    {[ 1%positive := OPlain [("name", VStr "Graeme"); ("created", VRef 2%positive);
                             ("nickname", VNum 7)];
       2%positive := ODate 1388577600000%float;
       8%positive := OArray [] ]} in
  exists r h' le ps,
    @Model.validate example_host (@datedPersonModel example_host)
      (VRef 1%positive) "Person" h = (Ok r, h')
    /\ entity r = VRef le /\ h' !! le = Some (OPlain ps)
    /\ has_own "name" ps = true /\ has_own "created" ps = true
    /\ has_own "friends" ps = true /\ has_own "nickname" ps = false.
Proof.
  intros h.
  let v := eval vm_compute in
    (@Model.validate example_host (@datedPersonModel example_host)
       (VRef 1%positive) "Person" h) in
  assert (@Model.validate example_host (@datedPersonModel example_host)
            (VRef 1%positive) "Person" h = v) as Hrun by (vm_compute; reflexivity).
  match type of Hrun with
  | _ = (Ok ?r, ?h') =>
  destruct (@entity_has_the_declared_fields example_host
              (@datedPersonModel example_host) "Person" (@datedPerson example_host)
              1%positive
              [("name", VStr "Graeme"); ("created", VRef 2%positive);
               ("nickname", VNum 7)]
              h h' r)
    as (le & ps & Hent & _ & Hle & Hkeys)
  end.
  - apply (@datedPerson_run example_host).
    + reflexivity.
    + apply (bool_decide_unpack _). vm_compute. exact I.
    + reflexivity.
    + unfold no_methods. apply (bool_decide_unpack _). vm_compute. exact I.
    + exact Hrun.
  - reflexivity.
  - eexists _, _, le, ps. split; [exact Hrun|].
    split; [exact Hent|]. split; [exact Hle|].
    split; [apply Hkeys; reflexivity|].
    split; [apply Hkeys; reflexivity|].
    split; [apply Hkeys; reflexivity|].
    destruct (has_own "nickname" ps) eqn:Hnick; [|reflexivity].
    apply Hkeys in Hnick. discriminate Hnick.
Defined.

(** The model of the tests on a person without [created]: the default is
    the function itself, the datetime field does not take it for a date,
    and the call ends with an error on [created] and no entity. *)
Lemma default_function_is_not_called_witness :
  let created := Field.new (@datetimeFieldType example_host) "created"
                   (Some [("defaultValue", VRef 1%positive)]) in
  Field.coerce created VUndefined undated_person
  = (Ok (VRef 1%positive), undated_person)
  /\ Field.validate created undated_person (VRef 1%positive)
     = Ok [VStr "value is not a date"]
  /\ fst (@Model.validate example_host (@testPersonModel example_host)
            (VRef 3%positive) "Person" undated_person)
     = Ok {| entity := VNull;
             errors := [ {| field := "created";
                            message_of := Msg (VStr "value is not a date") |} ] |}.
Proof.
  intros created.
  destruct (@default_function_is_not_called example_host created undated_person
              1%positive 0 (VRef 2%positive) eq_refl eq_refl)
    as (_ & Hco & Hval).
  split; [apply Hco; right; right; left; reflexivity|].
  split; [apply Hval; reflexivity|].
  vm_compute. reflexivity.
Defined.
